(** * AI Wrapper client: a shallow embedding of [client/ai_wrapper.py]

    The client is glue code around the [requests] library.  The remote
    server, the file system and standard output form the world the
    program runs in; every operation is a computation in a small
    state-and-exception monad over that world. *)

From Stdlib Require Import ZArith NArith List String Ascii Bool Lia.
From Stdlib Require Import Strings.Byte DecimalString SpecFloat.
Import ListNotations.

Local Open Scope string_scope.
Local Open Scope Z_scope.

Set Warnings "-register-all".

(** ** Python values *)

(** The values that [json.loads] produces and that [json=payload]
    serialises.  A Python [str] is a [string]; a [dict] keeps its items in
    insertion order, and its keys are unique. *)
Inductive pyval : Type :=
| PNone
| PBool (b : bool)
| PInt (z : Z)
| PFloat (f : spec_float)
| PStr (s : string)
| PList (l : list pyval)
| PDict (items : list (string * pyval)).

Definition py_opt_str (o : option string) : pyval :=
  match o with
  | Some s => PStr s
  | None => PNone
  end.

Definition py_opt_strs (o : option (list string)) : pyval :=
  match o with
  | Some l => PList (map PStr l)
  | None => PNone
  end.

Definition type_name (v : pyval) : string :=
  match v with
  | PNone => "NoneType"
  | PBool _ => "bool"
  | PInt _ => "int"
  | PFloat _ => "float"
  | PStr _ => "str"
  | PList _ => "list"
  | PDict _ => "dict"
  end.

Fixpoint lookup (k : string) (items : list (string * pyval)) : option pyval :=
  match items with
  | [] => None
  | (k', v) :: rest => if String.eqb k k' then Some v else lookup k rest
  end.

Definition keys (items : list (string * pyval)) : list string :=
  map fst items.

(** [x == "literal"] for a value [x] of any type. *)
Definition py_eq_str (v : pyval) (s : string) : bool :=
  match v with
  | PStr t => String.eqb t s
  | _ => false
  end.

Definition decimal (z : Z) : string :=
  NilZero.string_of_int (Z.to_int z).

(** ** Exceptions *)

(** The classes of [requests.exceptions]. *)
Inductive RequestsExc : Type :=
| RequestException
| InvalidJSONError
| RequestsJSONDecodeError
| HTTPError
| ConnectionError
| ProxyError
| SSLError
| Timeout
| ConnectTimeout
| ReadTimeout
| TooManyRedirects
| MissingSchema
| InvalidSchema
| InvalidURL
| ChunkedEncodingError
| ContentDecodingError.

(** The other classes are builtins, but for [JSONDecodeError] (of the
    [json] module) and the three of [urllib3.exceptions]. *)
Inductive ExnClass : Type :=
| Requests (c : RequestsExc)
| OSError
| FileNotFoundError
| ValueError
| JSONDecodeError
| UnicodeDecodeError
| AttributeError
| RuntimeError
| RecursionError
| Urllib3HTTPError
| LocationValueError
| LocationParseError.

Definition RequestsExc_eq_dec (a b : RequestsExc) : {a = b} + {a <> b}.
Proof. decide equality. Defined.

Definition ExnClass_eq_dec (a b : ExnClass) : {a = b} + {a <> b}.
Proof. decide equality. apply RequestsExc_eq_dec. Defined.

(** Direct base classes, as declared in [requests/exceptions.py] and in
    the builtins. *)
Definition bases (c : ExnClass) : list ExnClass :=
  match c with
  | Requests RequestException => [OSError]
  | Requests InvalidJSONError => [Requests RequestException]
  | Requests RequestsJSONDecodeError => [Requests InvalidJSONError; JSONDecodeError]
  | Requests HTTPError => [Requests RequestException]
  | Requests ConnectionError => [Requests RequestException]
  | Requests ProxyError => [Requests ConnectionError]
  | Requests SSLError => [Requests ConnectionError]
  | Requests Timeout => [Requests RequestException]
  | Requests ConnectTimeout => [Requests ConnectionError; Requests Timeout]
  | Requests ReadTimeout => [Requests Timeout]
  | Requests TooManyRedirects => [Requests RequestException]
  | Requests MissingSchema => [Requests RequestException; ValueError]
  | Requests InvalidSchema => [Requests RequestException; ValueError]
  | Requests InvalidURL => [Requests RequestException; ValueError]
  | Requests ChunkedEncodingError => [Requests RequestException]
  | Requests ContentDecodingError => [Requests RequestException]
  | OSError => []
  | FileNotFoundError => [OSError]
  | ValueError => []
  | JSONDecodeError => [ValueError]
  | UnicodeDecodeError => [ValueError]
  | AttributeError => []
  | RuntimeError => []
  | RecursionError => [RuntimeError]
  | Urllib3HTTPError => []
  | LocationValueError => [ValueError; Urllib3HTTPError]
  | LocationParseError => [LocationValueError]
  end.

Fixpoint issubclass_upto (depth : nat) (c d : ExnClass) : bool :=
  if ExnClass_eq_dec c d then true
  else match depth with
       | O => false
       | S depth' => existsb (fun b => issubclass_upto depth' b d) (bases c)
       end.

(** The hierarchy above is four levels deep. *)
Definition issubclass (c d : ExnClass) : bool := issubclass_upto 4 c d.

Record Exn : Type := mkExn { exn_class : ExnClass; exn_msg : string }.

Definition isinstance (e : Exn) (c : ExnClass) : bool :=
  issubclass (exn_class e) c.

(** [str(e)] *)
Definition str_exn (e : Exn) : string := exn_msg e.

(** ** The world *)

Inductive Method : Type := GET | POST.

(** One call of [requests.get] or [requests.post]; [req_timeout] is in
    seconds. *)
Record Request : Type := mkRequest {
  req_method : Method;
  req_url : string;
  req_json : option pyval;
  req_timeout : Z
}.

(** What the body of a response decodes to: a value, a syntax error of
    the decoder, or another exception that the decoder raises on a body
    that is JSON ([RecursionError] on deep nesting, [ValueError] on an
    integer with too many digits). *)
Inductive Content : Type :=
| JsonDoc (v : pyval)
| NotJson (msg : string)
| DecoderRaises (e : Exn).

Record Response : Type := mkResponse {
  status_code : Z;
  reason : string;
  url : string;
  content : Content
}.

(** How a call of [requests.get] or [requests.post] ends: with an
    exception of [requests.exceptions], with a response, or with any other
    exception that leaves the library (urllib3's [LocationParseError] for
    a host name with an empty or over-long label, [ValueError] for a
    timeout that is not positive). *)
Inductive NetOutcome : Type :=
| NetRaise (c : RequestsExc) (msg : string)
| NetResponse (r : Response)
| NetCrash (e : Exn).

(** [Response.json()] raises [requests.exceptions.JSONDecodeError] since
    requests 2.27, and the decoder's own [ValueError] subclass before. *)
Inductive RequestsVersion : Type := Before_2_27 | Since_2_27.

Record World : Type := mkWorld {
  net : nat -> Request -> NetOutcome;
  requests_version : RequestsVersion;
  fs : string -> option (list byte);
  sent : list Request;
  stdout : list string
}.

Definition log_request (req : Request) (w : World) : World :=
  {| net := net w; requests_version := requests_version w; fs := fs w;
     sent := sent w ++ [req]; stdout := stdout w |}.

Definition emit (line : string) (w : World) : World :=
  {| net := net w; requests_version := requests_version w; fs := fs w;
     sent := sent w; stdout := stdout w ++ [line] |}.

(** ** The monad *)

Inductive Result (A : Type) : Type :=
| Ret (a : A)
| Raise (e : Exn).
Arguments Ret {A} a.
Arguments Raise {A} e.

Definition M (A : Type) : Type := World -> Result A * World.

Definition ret {A} (a : A) : M A := fun w => (Ret a, w).

Definition raise {A} (e : Exn) : M A := fun w => (Raise e, w).

Definition bind {A B} (m : M A) (k : A -> M B) : M B :=
  fun w =>
    match m w with
    | (Ret a, w') => k a w'
    | (Raise e, w') => (Raise e, w')
    end.

Notation "x <- m ;; k" := (bind m (fun x => k))
  (at level 61, m at next level, right associativity).
Notation "m ;;; k" := (bind m (fun _ => k))
  (at level 61, right associativity).

(** [except C as e: h e], tried in order. *)
Fixpoint dispatch {A} (handlers : list (ExnClass * (Exn -> M A))) (e : Exn) : M A :=
  match handlers with
  | [] => raise e
  | (c, h) :: rest => if isinstance e c then h e else dispatch rest e
  end.

Definition try_except {A} (body : M A) (handlers : list (ExnClass * (Exn -> M A))) : M A :=
  fun w =>
    match body w with
    | (Ret a, w') => (Ret a, w')
    | (Raise e, w') => dispatch handlers e w'
    end.

Definition print (line : string) : M unit :=
  fun w => (Ret tt, emit line w).

(** ** The [requests] library *)

Definition requests_request (req : Request) : M Response :=
  fun w =>
    match net w (List.length (sent w)) req with
    | NetRaise c msg => (Raise (mkExn (Requests c) msg), log_request req w)
    | NetResponse r => (Ret r, log_request req w)
    | NetCrash e => (Raise e, log_request req w)
    end.

Definition requests_get (u : string) (timeout : Z) : M Response :=
  requests_request (mkRequest GET u None timeout).

Definition requests_post (u : string) (json : option pyval) (timeout : Z) : M Response :=
  requests_request (mkRequest POST u json timeout).

Definition http_error_msg (r : Response) : option string :=
  if (400 <=? status_code r) && (status_code r <? 500) then
    Some (decimal (status_code r) ++ " Client Error: " ++ reason r ++ " for url: " ++ url r)
  else if (500 <=? status_code r) && (status_code r <? 600) then
    Some (decimal (status_code r) ++ " Server Error: " ++ reason r ++ " for url: " ++ url r)
  else None.

Definition raise_for_status (r : Response) : M unit :=
  match http_error_msg r with
  | Some msg => raise (mkExn (Requests HTTPError) msg)
  | None => ret tt
  end.

Definition json_error_class (v : RequestsVersion) : ExnClass :=
  match v with
  | Before_2_27 => JSONDecodeError
  | Since_2_27 => Requests RequestsJSONDecodeError
  end.

Definition Response_json (r : Response) : M pyval :=
  fun w =>
    match content r with
    | JsonDoc v => (Ret v, w)
    | NotJson msg => (Raise (mkExn (json_error_class (requests_version w)) msg), w)
    | DecoderRaises e => (Raise e, w)
    end.

(** [dict.get(key, default)] *)
Definition dict_get (items : list (string * pyval)) (key : string) (default : pyval) : pyval :=
  match lookup key items with
  | Some v => v
  | None => default
  end.

(** [data.get(key, default)]: only a [dict] has the method. *)
Definition py_get (data : pyval) (key : string) (default : pyval) : M pyval :=
  match data with
  | PDict items => ret (dict_get items key default)
  | _ => raise (mkExn AttributeError
                  ("'" ++ type_name data ++ "' object has no attribute 'get'"))
  end.

(** ** Files, bytes and base64 *)

Definition byte_to_Z (b : byte) : Z := Z.of_N (Byte.to_N b).

Definition byte_of_Z (z : Z) : option byte := Byte.of_N (Z.to_N z).

(** [open(path, "rb")] followed by [f.read()]. *)
Definition open_rb_read (path : string) : M (list byte) :=
  fun w =>
    match fs w path with
    | Some data => (Ret data, w)
    | None =>
        (Raise (mkExn FileNotFoundError
                  ("[Errno 2] No such file or directory: '" ++ path ++ "'")), w)
    end.

Definition b64_alphabet : list byte :=
  list_byte_of_string
    "ABCDEFGHIJKLMNOPQRSTUVWXYZabcdefghijklmnopqrstuvwxyz0123456789+/".

Definition b64_pad : byte := "="%byte.

Definition b64_char (n : Z) : byte := nth (Z.to_nat n) b64_alphabet b64_pad.

(** [base64.b64encode]: three bytes become four characters; a final group
    of one or two bytes is padded with [=]. *)
Fixpoint b64encode (data : list byte) : list byte :=
  match data with
  | [] => []
  | [a] =>
      let n := byte_to_Z a in
      [b64_char (n / 4); b64_char ((n mod 4) * 16); b64_pad; b64_pad]
  | [a; b] =>
      let n := byte_to_Z a * 256 + byte_to_Z b in
      [b64_char (n / 1024); b64_char ((n / 16) mod 64);
       b64_char ((n mod 16) * 4); b64_pad]
  | a :: b :: c :: rest =>
      let n := byte_to_Z a * 65536 + byte_to_Z b * 256 + byte_to_Z c in
      b64_char (n / 262144) :: b64_char ((n / 4096) mod 64)
        :: b64_char ((n / 64) mod 64) :: b64_char (n mod 64)
        :: b64encode rest
  end.

(** Well-formed UTF-8 (Unicode 15, table 3-7), on byte values. *)
Definition in_range (lo hi x : Z) : bool := (lo <=? x) && (x <=? hi).

Fixpoint utf8_valid (bs : list Z) : bool :=
  match bs with
  | [] => true
  | b0 :: t0 =>
      if in_range 0 127 b0 then utf8_valid t0
      else match t0 with
      | [] => false
      | b1 :: t1 =>
          if in_range 194 223 b0 then in_range 128 191 b1 && utf8_valid t1
          else match t1 with
          | [] => false
          | b2 :: t2 =>
              if in_range 224 239 b0 then
                (if b0 =? 224 then in_range 160 191 b1
                 else if b0 =? 237 then in_range 128 159 b1
                 else in_range 128 191 b1)
                && in_range 128 191 b2 && utf8_valid t2
              else match t2 with
              | [] => false
              | b3 :: t3 =>
                  in_range 240 244 b0
                  && (if b0 =? 240 then in_range 144 191 b1
                      else if b0 =? 244 then in_range 128 143 b1
                      else in_range 128 191 b1)
                  && in_range 128 191 b2 && in_range 128 191 b3
                  && utf8_valid t3
              end
          end
      end
  end.

(** [bytes.decode("utf-8")]; a [str] is kept in its UTF-8 form. *)
Definition bytes_decode_utf8 (bs : list byte) : M string :=
  if utf8_valid (map byte_to_Z bs) then ret (string_of_list_byte bs)
  else raise (mkExn UnicodeDecodeError "'utf-8' codec can't decode bytes").

(** The inverse used to state the round-trip law: strict decoding of the
    standard alphabet with padding (RFC 4648, section 4). *)
Fixpoint b64_index_from (i : Z) (alphabet : list byte) (c : byte) : option Z :=
  match alphabet with
  | [] => None
  | a :: rest => if Byte.eqb a c then Some i else b64_index_from (i + 1) rest c
  end.

Definition b64_index (c : byte) : option Z := b64_index_from 0 b64_alphabet c.

Definition bytes_of_Zs (zs : list Z) : option (list byte) :=
  fold_right (fun z acc =>
                match byte_of_Z z, acc with
                | Some b, Some bs => Some (b :: bs)
                | _, _ => None
                end) (Some []) zs.

Fixpoint b64decode_bytes (cs : list byte) : option (list byte) :=
  match cs with
  | [] => Some []
  | c1 :: c2 :: c3 :: c4 :: rest =>
      match b64_index c1, b64_index c2, b64_index c3, b64_index c4 with
      | Some i1, Some i2, Some i3, Some i4 =>
          let n := ((i1 * 64 + i2) * 64 + i3) * 64 + i4 in
          match bytes_of_Zs [n / 65536; (n / 256) mod 256; n mod 256],
                b64decode_bytes rest with
          | Some group, Some tail => Some (group ++ tail)%list
          | _, _ => None
          end
      | Some i1, Some i2, Some i3, None =>
          let n := (i1 * 64 + i2) * 64 + i3 in
          match rest with
          | [] => if Byte.eqb c4 b64_pad
                  then bytes_of_Zs [n / 1024; (n / 4) mod 256] else None
          | _ :: _ => None
          end
      | Some i1, Some i2, None, None =>
          let n := i1 * 64 + i2 in
          match rest with
          | [] => if Byte.eqb c3 b64_pad && Byte.eqb c4 b64_pad
                  then bytes_of_Zs [n / 16] else None
          | _ :: _ => None
          end
      | _, _, _, _ => None
      end
  | _ => None
  end.

Definition b64decode (s : string) : option (list byte) :=
  b64decode_bytes (list_byte_of_string s).

(** ** [ChatResponse] *)

(** The dataclass does not check its field types: every field holds
    whatever the JSON body held. *)
Record ChatResponse : Type := mkChatResponse {
  status : pyval;
  project_id : pyval;
  response : pyval;
  error : pyval;
  images_uploaded : pyval
}.

Definition success (self : ChatResponse) : bool :=
  py_eq_str (status self) "success".

(** ** [AIClient] *)

Record AIClient : Type := mkAIClient {
  base_url : string;
  timeout : Z
}.

(** [s.rstrip(c)] for a single character [c]. *)
Fixpoint rstrip (c : ascii) (s : string) : string :=
  match s with
  | EmptyString => EmptyString
  | String a rest =>
      match rstrip c rest with
      | EmptyString => if Ascii.eqb a c then EmptyString else String a EmptyString
      | String _ _ as r => String a r
      end
  end.

Definition _verify_connection (self : AIClient) : M unit :=
  try_except
    (response <- requests_get (base_url self ++ "/status") 5 ;;
     if negb (status_code response =? 200) then
       print ("Warning: API returned status code " ++ decimal (status_code response))
     else ret tt)
    [(Requests RequestException,
      fun e => print ("Warning: Could not connect to API: " ++ str_exn e))].

Definition default_timeout : Z := 180.

Definition AIClient_init (base : string) (timeout : Z) : M AIClient :=
  let self := mkAIClient (rstrip "/" base) timeout in
  _verify_connection self ;;;
  ret self.

Definition chat_payload (prompt : string) (project_url : option string)
    (images : option (list string)) : pyval :=
  PDict [("prompt", PStr prompt);
         ("project_url", py_opt_str project_url);
         ("images", py_opt_strs images)].

Definition chat (self : AIClient) (prompt : string) (project_url : option string)
    (images : option (list string)) : M ChatResponse :=
  let payload := chat_payload prompt project_url images in
  try_except
    (response <- requests_post (base_url self ++ "/chat") (Some payload) (timeout self) ;;
     raise_for_status response ;;;
     data <- Response_json response ;;
     st <- py_get data "status" (PStr "error") ;;
     pid <- py_get data "project_id" PNone ;;
     resp <- py_get data "response" PNone ;;
     err <- py_get data "error" PNone ;;
     imgs <- py_get data "images_uploaded" PNone ;;
     ret (mkChatResponse st pid resp err imgs))
    [(Requests Timeout,
      fun _ => ret (mkChatResponse (PStr "error") PNone PNone
                      (PStr "Request timeout - AI taking too long to respond") PNone));
     (Requests RequestException,
      fun e => ret (mkChatResponse (PStr "error") PNone PNone
                      (PStr ("Request failed: " ++ str_exn e)) PNone))].

Definition get_status (self : AIClient) : M pyval :=
  response <- requests_get (base_url self ++ "/status") 5 ;;
  raise_for_status response ;;;
  Response_json response.

Definition list_projects (self : AIClient) : M pyval :=
  response <- requests_get (base_url self ++ "/projects") 5 ;;
  raise_for_status response ;;;
  Response_json response.

Definition reload_engine (self : AIClient) : M pyval :=
  response <- requests_post (base_url self ++ "/reload") None 30 ;;
  raise_for_status response ;;;
  Response_json response.

(** ** Free functions *)

Definition encode_image (image_path : string) : M string :=
  data <- open_rb_read image_path ;;
  bytes_decode_utf8 (b64encode data).

Section Formatting.

(** [str()] of a float, a list or a dict: the interpreter's own
    formatting, not fixed here. *)
Variable repr_other : pyval -> string.

(** [f"{v}"] *)
Definition py_str (v : pyval) : string :=
  match v with
  | PStr s => s
  | PNone => "None"
  | PBool true => "True"
  | PBool false => "False"
  | PInt z => decimal z
  | _ => repr_other v
  end.

Definition quick_chat (prompt : string) (base : string)
    (project_url : option string) (images : option (list string)) : M pyval :=
  client <- AIClient_init base default_timeout ;;
  response_ <- chat client prompt project_url images ;;
  ret (if success response_ then response response_
       else PStr ("Error: " ++ py_str (error response_))).

End Formatting.

(** ** [ChatResponse.__str__] *)

(** Truth value of a value, as [if v] takes it. *)
Definition py_truthy (v : pyval) : bool :=
  match v with
  | PNone => false
  | PBool b => b
  | PInt z => negb (z =? 0)
  | PFloat (S754_zero _) => false
  | PFloat _ => true
  | PStr EmptyString => false
  | PStr (String _ _) => true
  | PList [] => false
  | PList (_ :: _) => true
  | PDict [] => false
  | PDict (_ :: _) => true
  end.

(** [s * n] on strings. *)
Fixpoint str_mul (s : string) (n : nat) : string :=
  match n with
  | O => EmptyString
  | S n' => s ++ str_mul s n'
  end.

Definition newline : string := String "010" EmptyString.

(** ** The callers in [examples/basic_usage.py] *)

Definition API_URL : string := "http://your-vm-ip:8000".

Section Callers.

Variable repr_other : pyval -> string.

Definition ChatResponse_str (self : ChatResponse) : string :=
  if success self then
    let files_str :=
      if py_truthy (images_uploaded self)
      then " [" ++ py_str repr_other (images_uploaded self) ++ " image(s) uploaded]"
      else EmptyString in
    "[" ++ py_str repr_other (project_id self) ++ "]" ++ files_str ++ " "
      ++ py_str repr_other (response self)
  else "[ERROR] " ++ py_str repr_other (error self).

Definition example_single_project : M unit :=
  print (str_mul "=" 70) ;;;
  print "Example 1: Single Project Mode" ;;;
  print (str_mul "=" 70) ;;;
  client <- AIClient_init API_URL default_timeout ;;
  response_ <- chat client "What is artificial intelligence? Be brief." None None ;;
  if success response_
  then print ("✓ Response: " ++ py_str repr_other (response response_))
  else print ("✗ Error: " ++ py_str repr_other (error response_)).

(** The loop of [example_batch_processing]: [total] is [len(questions)]
    of the whole list, [i] the index that [enumerate(questions, 1)] gives
    the head of what is left. *)
Fixpoint batch_loop (client : AIClient) (total : nat) (i : Z)
    (questions : list string) (results : list pyval) : M (list pyval) :=
  match questions with
  | [] => ret results
  | question :: rest =>
      print ("Processing " ++ decimal i ++ "/" ++ decimal (Z.of_nat total)
               ++ ": " ++ question) ;;;
      response_ <- chat client question None None ;;
      if success response_
      then batch_loop client total (i + 1) rest
             (results ++ [PDict [("question", PStr question);
                                 ("answer", response response_)]])%list
      else (print ("  ✗ Failed: " ++ py_str repr_other (error response_)) ;;;
            batch_loop client total (i + 1) rest results)
  end.

Definition batch_questions : list string :=
  ["What is AI?"; "What is ML?"; "What is DL?"].

Definition example_batch_processing : M unit :=
  print (newline ++ str_mul "=" 70) ;;;
  print "Example 4: Batch Processing" ;;;
  print (str_mul "=" 70) ;;;
  client <- AIClient_init API_URL default_timeout ;;
  results <- batch_loop client (List.length batch_questions) 1 batch_questions [] ;;
  print (newline ++ "✓ Successfully processed "
           ++ decimal (Z.of_nat (List.length results)) ++ "/"
           ++ decimal (Z.of_nat (List.length batch_questions)) ++ " questions").

(** The closure [process_user_question] of
    [example_application_integration], with the client it captures. *)
Definition process_user_question (ai_client : AIClient) (user_input : string) : M pyval :=
  response_ <- chat ai_client user_input None None ;;
  if success response_
  then ret (response response_)
  else (print ("AI Error: " ++ py_str repr_other (error response_)) ;;;
        ret (PStr "Sorry, I couldn't process your question right now.")).

Definition example_application_integration : M unit :=
  print (newline ++ str_mul "=" 70) ;;;
  print "Example 6: Application Integration" ;;;
  print (str_mul "=" 70) ;;;
  ai_client <- AIClient_init API_URL default_timeout ;;
  answer <- process_user_question ai_client "What is quantum computing?" ;;
  print ("Q: " ++ "What is quantum computing?") ;;;
  print ("A: " ++ py_str repr_other answer).

End Callers.

(** * Vocabulary of the properties *)

Definition is_timeout (c : RequestsExc) : bool :=
  match c with
  | Timeout | ConnectTimeout | ReadTimeout => true
  | _ => false
  end.

(** The request that [chat] hands to [requests.post]. *)
Definition chat_request (self : AIClient) (prompt : string)
    (project_url : option string) (images : option (list string)) : Request :=
  mkRequest POST (base_url self ++ "/chat")
    (Some (chat_payload prompt project_url images)) (timeout self).

Definition timeout_result : ChatResponse :=
  mkChatResponse (PStr "error") PNone PNone
    (PStr "Request timeout - AI taking too long to respond") PNone.

Definition failed_result (details : string) : ChatResponse :=
  mkChatResponse (PStr "error") PNone PNone
    (PStr ("Request failed: " ++ details)) PNone.

(** Worlds to run the client in: a server that gives the same answer to
    every request. *)
Definition always (o : NetOutcome) (v : RequestsVersion) : World :=
  mkWorld (fun _ _ => o) v (fun _ => None) [] [].

(** A server whose [/status] probe (the first request) and later requests
    are answered differently. *)
Definition probe_then (probe later : NetOutcome) (v : RequestsVersion) : World :=
  mkWorld (fun n _ => match n with O => probe | S _ => later end) v
    (fun _ => None) [] [].

Definition demo_client : AIClient := mkAIClient "http://vm:8000" 180.

Definition ok_json (u : string) (v : pyval) : NetOutcome :=
  NetResponse (mkResponse 200 "OK" u (JsonDoc v)).

Definition probe_request (base : string) : Request :=
  mkRequest GET (rstrip "/" base ++ "/status") None 5.

(** The warning, if any, that the probe prints for an outcome. *)
Definition probe_warning (o : NetOutcome) : option string :=
  match o with
  | NetRaise _ msg => Some ("Warning: Could not connect to API: " ++ msg)
  | NetResponse r =>
      if status_code r =? 200 then None
      else Some ("Warning: API returned status code " ++ decimal (status_code r))
  | NetCrash e => Some ("Warning: Could not connect to API: " ++ str_exn e)
  end.

(** The exception, if any, that a call ending in [o] raises past a
    handler for [RequestException]. *)
Definition escapes (o : NetOutcome) : option Exn :=
  match o with
  | NetCrash e => if isinstance e (Requests RequestException) then None else Some e
  | _ => None
  end.

(** The world that a constructor which returns leaves behind. *)
Definition after_probe (base : string) (w : World) : World :=
  match probe_warning (net w (List.length (sent w)) (probe_request base)) with
  | Some line => emit line (log_request (probe_request base) w)
  | None => log_request (probe_request base) w
  end.

Inductive Monitoring : Type := GetStatus | ListProjects | ReloadEngine.

Definition run_monitoring (op : Monitoring) : AIClient -> M pyval :=
  match op with
  | GetStatus => get_status
  | ListProjects => list_projects
  | ReloadEngine => reload_engine
  end.

(** The request each operation issues. *)
Definition monitoring_request (op : Monitoring) (self : AIClient) : Request :=
  match op with
  | GetStatus => mkRequest GET (base_url self ++ "/status") None 5
  | ListProjects => mkRequest GET (base_url self ++ "/projects") None 5
  | ReloadEngine => mkRequest POST (base_url self ++ "/reload") None 30
  end.

(** The request that [quick_chat] makes [chat] issue. *)
Definition quick_chat_request (prompt base : string) (project_url : option string)
    (images : option (list string)) : Request :=
  chat_request (mkAIClient (rstrip "/" base) default_timeout) prompt project_url images.

Definition sextets : list Z := map Z.of_nat (seq 0 64).

Definition is_ascii (b : byte) : bool := in_range 0 127 (byte_to_Z b).

(** A stand-in for the interpreter's formatting of floats, lists and
    dicts, for running [quick_chat] on examples. *)
Definition repr_stub (v : pyval) : string := "<" ++ type_name v ++ ">".

(** A file system holding one file. *)
Definition one_file (path : string) (data : list byte) : World :=
  mkWorld (fun _ _ => NetRaise ConnectionError "unreachable") Since_2_27
    (fun p => if String.eqb p path then Some data else None) [] [].

(** The last character of a string, if it has one. *)
Fixpoint last_char (s : string) : option ascii :=
  match s with
  | EmptyString => None
  | String a rest =>
      match rest with
      | EmptyString => Some a
      | String _ _ => last_char rest
      end
  end.

(** The server cannot be reached: every request ends in an exception of
    [requests], whose class and text may differ from request to request. *)
Definition unreachable (w : World) : Prop :=
  forall n req, exists c msg, net w n req = NetRaise c msg.

(** A host name that urllib3 refuses to parse: every call raises its
    [LocationParseError]. *)
Definition bad_host_world : World :=
  mkWorld (fun _ _ =>
             NetCrash (mkExn LocationParseError
                         "Failed to parse: 'a..b', label empty or too long"))
    Since_2_27 (fun _ => None) [] [].

(** The text [chat] stores in [error] for a transport failure. *)
Definition failure_text (c : RequestsExc) (msg : string) : string :=
  if is_timeout c then "Request timeout - AI taking too long to respond"
  else "Request failed: " ++ msg.

Definition fallback_answer : string :=
  "Sorry, I couldn't process your question right now.".

(** * Properties *)

(** ** The exception hierarchy *)

(** Four levels reach every ancestor: more depth finds nothing new. *)
Lemma issubclass_depth_enough (c d : ExnClass) :
  issubclass_upto 8 c d = issubclass c d.
Proof.
  destruct c as [r| | | | | | | | | | |]; [destruct r|..];
    (destruct d as [r'| | | | | | | | | | |]; [destruct r'|..]); reflexivity.
Qed.

Lemma requests_exc_is_RequestException (c : RequestsExc) (msg : string) :
  isinstance (mkExn (Requests c) msg) (Requests RequestException) = true.
Proof. destruct c; reflexivity. Qed.

Lemma isinstance_Timeout (c : RequestsExc) (msg : string) :
  isinstance (mkExn (Requests c) msg) (Requests Timeout) = is_timeout c.
Proof. destruct c; reflexivity. Qed.

Lemma builtin_not_RequestException (c : ExnClass) (msg : string) :
  (forall r, c <> Requests r) ->
  isinstance (mkExn c msg) (Requests RequestException) = false
  /\ isinstance (mkExn c msg) (Requests Timeout) = false.
Proof.
  intros Hc. destruct c; try (split; reflexivity).
  exfalso. apply (Hc c). reflexivity.
Qed.

(** ** The [requests] primitives *)

Lemma requests_request_raises req w c msg :
  net w (List.length (sent w)) req = NetRaise c msg ->
  requests_request req w = (Raise (mkExn (Requests c) msg), log_request req w).
Proof. intros H. unfold requests_request. rewrite H. reflexivity. Qed.

Lemma requests_request_responds req w r :
  net w (List.length (sent w)) req = NetResponse r ->
  requests_request req w = (Ret r, log_request req w).
Proof. intros H. unfold requests_request. rewrite H. reflexivity. Qed.

Lemma requests_request_crashes req w e :
  net w (List.length (sent w)) req = NetCrash e ->
  requests_request req w = (Raise e, log_request req w).
Proof. intros H. unfold requests_request. rewrite H. reflexivity. Qed.

(** What the first handler of [chat] catches, the second would catch too. *)
Lemma Timeout_is_RequestException (e : Exn) :
  isinstance e (Requests Timeout) = true ->
  isinstance e (Requests RequestException) = true.
Proof.
  destruct e as [c msg]. unfold isinstance. cbn [exn_class].
  destruct c as [r| | | | | | | | | | |]; [destruct r|..]; cbn; congruence.
Qed.

Lemma http_error_msg_4xx_5xx r :
  400 <= status_code r < 600 -> exists msg, http_error_msg r = Some msg.
Proof.
  intros H. unfold http_error_msg.
  destruct (status_code r <? 500) eqn:E.
  - replace (400 <=? status_code r) with true by (symmetry; apply Z.leb_le; lia).
    simpl. eauto.
  - replace (500 <=? status_code r) with true
      by (symmetry; apply Z.leb_le; apply Z.ltb_ge in E; lia).
    replace (status_code r <? 600) with true by (symmetry; apply Z.ltb_lt; lia).
    rewrite andb_false_r. simpl. eauto.
Qed.

Lemma http_error_msg_other r :
  ~ (400 <= status_code r < 600) -> http_error_msg r = None.
Proof.
  intros H. unfold http_error_msg.
  destruct (400 <=? status_code r) eqn:E1; simpl.
  - apply Z.leb_le in E1.
    replace (status_code r <? 500) with false by (symmetry; apply Z.ltb_ge; lia).
    replace (status_code r <? 600) with false by (symmetry; apply Z.ltb_ge; lia).
    rewrite andb_false_r. reflexivity.
  - apply Z.leb_gt in E1.
    replace (500 <=? status_code r) with false by (symmetry; apply Z.leb_gt; lia).
    reflexivity.
Qed.

Lemma raise_for_status_raises r msg w :
  http_error_msg r = Some msg ->
  raise_for_status r w = (Raise (mkExn (Requests HTTPError) msg), w).
Proof. intros H. unfold raise_for_status. rewrite H. reflexivity. Qed.

Lemma raise_for_status_passes r w :
  http_error_msg r = None -> raise_for_status r w = (Ret tt, w).
Proof. intros H. unfold raise_for_status. rewrite H. reflexivity. Qed.

(** ** [ChatResponse.success] *)

(** C9: the [success] accessor of a [ChatResponse] is true exactly when
    its [status] field is the string ["success"]; every other status,
    the defaulted ["error"] included, gives false. *)
Theorem success_iff_status_success (r : ChatResponse) :
  (success r = true <-> status r = PStr "success")
  /\ (status r <> PStr "success" -> success r = false)
  /\ success (mkChatResponse (PStr "error") PNone PNone PNone PNone) = false.
Proof.
  assert (Hiff : success r = true <-> status r = PStr "success").
  { unfold success, py_eq_str. destruct (status r); split; intros H;
      try discriminate.
    - apply String.eqb_eq in H. congruence.
    - injection H as ->. reflexivity. }
  split; [exact Hiff|]. split; [|reflexivity].
  intros Hne. destruct (success r) eqn:E; [|reflexivity].
  exfalso. apply Hne, Hiff. reflexivity.
Qed.

Lemma success_iff_status_success_witness :
  success (mkChatResponse (PStr "success") PNone (PStr "X") PNone PNone) = true
  /\ success (mkChatResponse PNone PNone PNone PNone PNone) = false.
Proof.
  split.
  - apply (proj1 (success_iff_status_success
                    (mkChatResponse (PStr "success") PNone (PStr "X") PNone PNone))).
    reflexivity.
  - apply (proj1 (proj2 (success_iff_status_success
                    (mkChatResponse PNone PNone PNone PNone PNone)))).
    simpl. discriminate.
Defined.

(** ** [AIClient.chat] *)

(** Opens the [try] block of [chat] at its first statement. *)
Ltac enter_chat :=
  unfold chat, try_except, bind, requests_post;
  match goal with
  | |- context [chat_payload ?p ?u ?i] =>
      match goal with
      | |- context [base_url ?c] => fold (chat_request c p u i)
      end
  end.

Lemma chat_transport_failure self prompt project_url images w c msg :
  net w (List.length (sent w)) (chat_request self prompt project_url images)
    = NetRaise c msg ->
  chat self prompt project_url images w
  = (Ret (if is_timeout c then timeout_result else failed_result msg),
     log_request (chat_request self prompt project_url images) w).
Proof.
  intros H. enter_chat.
  rewrite (requests_request_raises _ _ _ _ H).
  cbn [dispatch]. rewrite isinstance_Timeout.
  destruct (is_timeout c); [reflexivity|].
  rewrite requests_exc_is_RequestException. reflexivity.
Qed.

Lemma chat_http_error self prompt project_url images w r msg :
  net w (List.length (sent w)) (chat_request self prompt project_url images)
    = NetResponse r ->
  http_error_msg r = Some msg ->
  chat self prompt project_url images w
  = (Ret (failed_result msg),
     log_request (chat_request self prompt project_url images) w).
Proof.
  intros H Hm. enter_chat.
  rewrite (requests_request_responds _ _ _ H).
  rewrite (raise_for_status_raises _ _ _ Hm).
  reflexivity.
Qed.

Lemma chat_json_object self prompt project_url images w r items :
  net w (List.length (sent w)) (chat_request self prompt project_url images)
    = NetResponse r ->
  http_error_msg r = None ->
  content r = JsonDoc (PDict items) ->
  chat self prompt project_url images w
  = (Ret (mkChatResponse (dict_get items "status" (PStr "error"))
            (dict_get items "project_id" PNone)
            (dict_get items "response" PNone)
            (dict_get items "error" PNone)
            (dict_get items "images_uploaded" PNone)),
     log_request (chat_request self prompt project_url images) w).
Proof.
  intros H Hm Hc. enter_chat.
  rewrite (requests_request_responds _ _ _ H).
  rewrite (raise_for_status_passes _ _ Hm).
  unfold Response_json. rewrite Hc.
  reflexivity.
Qed.

Lemma chat_not_an_object self prompt project_url images w r v :
  net w (List.length (sent w)) (chat_request self prompt project_url images)
    = NetResponse r ->
  http_error_msg r = None ->
  content r = JsonDoc v ->
  (forall items, v <> PDict items) ->
  chat self prompt project_url images w
  = (Raise (mkExn AttributeError
              ("'" ++ type_name v ++ "' object has no attribute 'get'")),
     log_request (chat_request self prompt project_url images) w).
Proof.
  intros H Hm Hc Hv. enter_chat.
  rewrite (requests_request_responds _ _ _ H).
  rewrite (raise_for_status_passes _ _ Hm).
  unfold Response_json. rewrite Hc.
  destruct v; try reflexivity.
  exfalso. apply (Hv items). reflexivity.
Qed.

Lemma chat_not_json self prompt project_url images w r msg :
  net w (List.length (sent w)) (chat_request self prompt project_url images)
    = NetResponse r ->
  http_error_msg r = None ->
  content r = NotJson msg ->
  chat self prompt project_url images w
  = (match requests_version w with
     | Before_2_27 => Raise (mkExn JSONDecodeError msg)
     | Since_2_27 => Ret (failed_result msg)
     end,
     log_request (chat_request self prompt project_url images) w).
Proof.
  intros H Hm Hc. enter_chat.
  rewrite (requests_request_responds _ _ _ H).
  rewrite (raise_for_status_passes _ _ Hm).
  unfold Response_json. rewrite Hc.
  change (requests_version (log_request (chat_request self prompt project_url images) w))
    with (requests_version w).
  destruct (requests_version w); reflexivity.
Qed.

(** C1: [chat] never raises for a network-layer failure.  When the call
    raises a [requests] timeout it returns the result with status
    ["error"] and error ["Request timeout - AI taking too long to respond"];
    when it raises any other [requests] exception, or the response has a
    4xx or 5xx status that [raise_for_status] turns into an [HTTPError],
    it returns status ["error"] and error ["Request failed: <details>"],
    the details being the text of the exception. *)
Theorem chat_never_raises_on_network_failure
    self prompt project_url images w :
  let req := chat_request self prompt project_url images in
  (forall c msg,
      net w (List.length (sent w)) req = NetRaise c msg ->
      isinstance (mkExn (Requests c) msg) (Requests Timeout) = true ->
      chat self prompt project_url images w = (Ret timeout_result, log_request req w))
  /\ (forall c msg,
      net w (List.length (sent w)) req = NetRaise c msg ->
      isinstance (mkExn (Requests c) msg) (Requests Timeout) = false ->
      chat self prompt project_url images w
      = (Ret (failed_result msg), log_request req w))
  /\ (forall r,
      net w (List.length (sent w)) req = NetResponse r ->
      400 <= status_code r < 600 ->
      exists details,
        http_error_msg r = Some details
        /\ chat self prompt project_url images w
           = (Ret (failed_result details), log_request req w)).
Proof.
  intros req. repeat split.
  - intros c msg H Ht. rewrite isinstance_Timeout in Ht.
    unfold req. rewrite (chat_transport_failure _ _ _ _ _ _ _ H), Ht. reflexivity.
  - intros c msg H Ht. rewrite isinstance_Timeout in Ht.
    unfold req. rewrite (chat_transport_failure _ _ _ _ _ _ _ H), Ht. reflexivity.
  - intros r H Hcode. destruct (http_error_msg_4xx_5xx r Hcode) as [details Hd].
    exists details. split; [exact Hd|].
    apply (chat_http_error _ _ _ _ _ _ _ H Hd).
Qed.

Lemma chat_never_raises_on_network_failure_witness :
  fst (chat demo_client "Hello" None None
         (always (NetRaise ReadTimeout "Read timed out. (read timeout=180)") Since_2_27))
  = Ret timeout_result
  /\ fst (chat demo_client "Hello" None None
         (always (NetRaise ConnectionError "Connection refused") Since_2_27))
  = Ret (failed_result "Connection refused")
  /\ fst (chat demo_client "Hello" None None
            (always (NetResponse (mkResponse 503 "Service Unavailable"
                                    "http://vm:8000/chat" (NotJson "Expecting value")))
                    Since_2_27))
     = Ret (failed_result
              "503 Server Error: Service Unavailable for url: http://vm:8000/chat").
Proof.
  split; [|split].
  - rewrite (proj1 (chat_never_raises_on_network_failure demo_client "Hello" None None
                      (always (NetRaise ReadTimeout "Read timed out. (read timeout=180)")
                              Since_2_27))
               ReadTimeout "Read timed out. (read timeout=180)" eq_refl eq_refl).
    reflexivity.
  - rewrite (proj1 (proj2 (chat_never_raises_on_network_failure demo_client "Hello"
                      None None
                      (always (NetRaise ConnectionError "Connection refused") Since_2_27)))
               ConnectionError "Connection refused" eq_refl eq_refl).
    reflexivity.
  - destruct (proj2 (proj2 (chat_never_raises_on_network_failure demo_client "Hello"
                      None None
                      (always (NetResponse (mkResponse 503 "Service Unavailable"
                                              "http://vm:8000/chat" (NotJson "Expecting value")))
                              Since_2_27)))
               (mkResponse 503 "Service Unavailable" "http://vm:8000/chat" (NotJson "Expecting value"))
               eq_refl ltac:(simpl; lia)) as [details [Hmsg Hd]].
    rewrite Hd. injection Hmsg as <-. reflexivity.
Defined.

(** C2: when the call succeeds at the HTTP level ([raise_for_status]
    passes, as for every 2xx status) and the body is a JSON object, the
    returned [ChatResponse] is built from the parsed body: [status] is the
    body's [status] entry, or ["error"] when the body has none, and
    [project_id], [response], [error] and [images_uploaded] are the body's
    entries, or [None] when the body omits them. *)
Theorem chat_builds_result_from_body
    self prompt project_url images w r items :
  net w (List.length (sent w)) (chat_request self prompt project_url images)
    = NetResponse r ->
  ~ (400 <= status_code r < 600) ->
  content r = JsonDoc (PDict items) ->
  chat self prompt project_url images w
  = (Ret {| status := match lookup "status" items with
                      | Some v => v
                      | None => PStr "error"
                      end;
            project_id := match lookup "project_id" items with
                          | Some v => v
                          | None => PNone
                          end;
            response := match lookup "response" items with
                        | Some v => v
                        | None => PNone
                        end;
            error := match lookup "error" items with
                     | Some v => v
                     | None => PNone
                     end;
            images_uploaded := match lookup "images_uploaded" items with
                               | Some v => v
                               | None => PNone
                               end |},
     log_request (chat_request self prompt project_url images) w).
Proof.
  intros H Hcode Hc.
  apply (chat_json_object _ _ _ _ _ _ _ H (http_error_msg_other r Hcode) Hc).
Qed.

Lemma chat_builds_result_from_body_witness :
  chat demo_client "Hello" None (Some ["aGVsbG8="])
    (always (ok_json "http://vm:8000/chat"
               (PDict [("status", PStr "success"); ("project_id", PStr "p1");
                       ("response", PStr "Hi"); ("images_uploaded", PInt 1)]))
            Since_2_27)
  = (Ret (mkChatResponse (PStr "success") (PStr "p1") (PStr "Hi") PNone (PInt 1)),
     log_request (chat_request demo_client "Hello" None (Some ["aGVsbG8="]))
       (always (ok_json "http://vm:8000/chat"
                  (PDict [("status", PStr "success"); ("project_id", PStr "p1");
                          ("response", PStr "Hi"); ("images_uploaded", PInt 1)]))
               Since_2_27)).
Proof.
  apply (chat_builds_result_from_body demo_client "Hello" None (Some ["aGVsbG8="])
           (always (ok_json "http://vm:8000/chat"
                      (PDict [("status", PStr "success"); ("project_id", PStr "p1");
                              ("response", PStr "Hi"); ("images_uploaded", PInt 1)]))
                   Since_2_27)
           (mkResponse 200 "OK" "http://vm:8000/chat"
              (JsonDoc (PDict [("status", PStr "success"); ("project_id", PStr "p1");
                               ("response", PStr "Hi"); ("images_uploaded", PInt 1)])))
           [("status", PStr "success"); ("project_id", PStr "p1");
            ("response", PStr "Hi"); ("images_uploaded", PInt 1)]).
  - reflexivity.
  - simpl. lia.
  - reflexivity.
Defined.

(** C4 as the specification has it fails with requests 2.27 or later: a
    success response whose body is not JSON makes [Response.json()] raise
    [requests.exceptions.JSONDecodeError], a [RequestException], and the
    second handler of [chat] turns it into an error result. *)
Lemma chat_non_json_body_is_caught_since_2_27 :
  let w := always (NetResponse (mkResponse 200 "OK" "http://vm:8000/chat"
                                  (NotJson "Expecting value: line 1 column 1 (char 0)")))
                  Since_2_27 in
  fst (chat demo_client "Hello" None None w)
  = Ret (failed_result "Expecting value: line 1 column 1 (char 0)")
  /\ ~ (exists e, fst (chat demo_client "Hello" None None w) = Raise e).
Proof.
  split.
  - reflexivity.
  - intros [e He]. discriminate He.
Qed.

(** C4, amended: on an HTTP-level success with an unusable body, the
    failure reaches the caller whenever the exception is not a
    [RequestException]: a body that is JSON but not an object raises
    [AttributeError], and a body that is not JSON raises the decoder's
    [JSONDecodeError] under requests before 2.27.  Under requests 2.27 or
    later the body that is not JSON is caught and becomes the error result
    ["Request failed: <details>"]. *)
Theorem chat_malformed_body self prompt project_url images w r :
  net w (List.length (sent w)) (chat_request self prompt project_url images)
    = NetResponse r ->
  ~ (400 <= status_code r < 600) ->
  (forall v, content r = JsonDoc v -> (forall items, v <> PDict items) ->
     chat self prompt project_url images w
     = (Raise (mkExn AttributeError
                 ("'" ++ type_name v ++ "' object has no attribute 'get'")),
        log_request (chat_request self prompt project_url images) w))
  /\ (forall msg, content r = NotJson msg -> requests_version w = Before_2_27 ->
     chat self prompt project_url images w
     = (Raise (mkExn JSONDecodeError msg),
        log_request (chat_request self prompt project_url images) w))
  /\ (forall msg, content r = NotJson msg -> requests_version w = Since_2_27 ->
     chat self prompt project_url images w
     = (Ret (failed_result msg),
        log_request (chat_request self prompt project_url images) w)).
Proof.
  intros H Hcode. pose proof (http_error_msg_other r Hcode) as Hm.
  repeat split.
  - intros v Hc Hv. apply (chat_not_an_object _ _ _ _ _ _ _ H Hm Hc Hv).
  - intros msg Hc Hv. rewrite (chat_not_json _ _ _ _ _ _ _ H Hm Hc), Hv. reflexivity.
  - intros msg Hc Hv. rewrite (chat_not_json _ _ _ _ _ _ _ H Hm Hc), Hv. reflexivity.
Qed.

Lemma chat_malformed_body_witness :
  fst (chat demo_client "Hello" None None
         (always (ok_json "http://vm:8000/chat" (PList [])) Since_2_27))
  = Raise (mkExn AttributeError "'list' object has no attribute 'get'")
  /\ fst (chat demo_client "Hello" None None
         (always (NetResponse (mkResponse 200 "OK" "http://vm:8000/chat"
                                 (NotJson "Expecting value")))
                 Before_2_27))
  = Raise (mkExn JSONDecodeError "Expecting value")
  /\ fst (chat demo_client "Hello" None None
         (always (NetResponse (mkResponse 200 "OK" "http://vm:8000/chat"
                                 (NotJson "Expecting value")))
                 Since_2_27))
  = Ret (failed_result "Expecting value").
Proof.
  split; [|split].
  - rewrite (proj1 (chat_malformed_body demo_client "Hello" None None
                      (always (ok_json "http://vm:8000/chat" (PList [])) Since_2_27)
                      (mkResponse 200 "OK" "http://vm:8000/chat" (JsonDoc (PList [])))
                      eq_refl ltac:(simpl; lia))
               (PList []) eq_refl ltac:(intros items; discriminate)).
    reflexivity.
  - rewrite (proj1 (proj2 (chat_malformed_body demo_client "Hello" None None
                      (always (NetResponse (mkResponse 200 "OK" "http://vm:8000/chat"
                                              (NotJson "Expecting value")))
                              Before_2_27)
                      (mkResponse 200 "OK" "http://vm:8000/chat" (NotJson "Expecting value"))
                      eq_refl ltac:(simpl; lia)))
               "Expecting value" eq_refl eq_refl).
    reflexivity.
  - rewrite (proj2 (proj2 (chat_malformed_body demo_client "Hello" None None
                      (always (NetResponse (mkResponse 200 "OK" "http://vm:8000/chat"
                                              (NotJson "Expecting value")))
                              Since_2_27)
                      (mkResponse 200 "OK" "http://vm:8000/chat" (NotJson "Expecting value"))
                      eq_refl ltac:(simpl; lia)))
               "Expecting value" eq_refl eq_refl).
    reflexivity.
Defined.

(** Whatever happens inside it, [chat] leaves the world with one more
    logged request and nothing else changed. *)
Lemma chat_world self prompt project_url images w :
  snd (chat self prompt project_url images w)
  = log_request (chat_request self prompt project_url images) w.
Proof.
  enter_chat. unfold requests_request.
  destruct (net w (List.length (sent w)) _) as [c msg|r|e].
  - cbn [dispatch]. rewrite isinstance_Timeout.
    destruct (is_timeout c); [reflexivity|].
    rewrite requests_exc_is_RequestException. reflexivity.
  - unfold raise_for_status.
    destruct (http_error_msg r) as [m|]; [reflexivity|].
    cbn beta iota. unfold ret at 1. cbn beta iota.
    unfold Response_json.
    destruct (content r) as [v|m|e].
    + destruct v; reflexivity.
    + cbn [requests_version log_request].
      destruct (requests_version w); reflexivity.
    + cbn [dispatch].
      destruct (isinstance e (Requests Timeout)); [reflexivity|].
      destruct (isinstance e (Requests RequestException)); reflexivity.
  - cbn [dispatch].
    destruct (isinstance e (Requests Timeout)); [reflexivity|].
    destruct (isinstance e (Requests RequestException)); reflexivity.
Qed.

(** C8: [chat] issues exactly one request, a POST to [{base_url}/chat]
    carrying as JSON a dict with exactly the keys [prompt], [project_url]
    and [images] (the last two present with value [None] when not
    supplied), under the client's configured timeout. *)
Theorem chat_issues_post self prompt project_url images w :
  sent (snd (chat self prompt project_url images w))
  = (sent w ++ [mkRequest POST (base_url self ++ "/chat")
                  (Some (chat_payload prompt project_url images))
                  (timeout self)])%list
  /\ (exists items,
        chat_payload prompt project_url images = PDict items
        /\ keys items = ["prompt"; "project_url"; "images"]
        /\ lookup "prompt" items = Some (PStr prompt)
        /\ lookup "project_url" items
           = Some (match project_url with Some u => PStr u | None => PNone end)
        /\ lookup "images" items
           = Some (match images with Some l => PList (map PStr l) | None => PNone end)).
Proof.
  split.
  - rewrite chat_world. reflexivity.
  - eexists. split; [reflexivity|].
    destruct project_url, images; repeat split; reflexivity.
Qed.

(** ** Construction and the connectivity probe *)

Lemma AIClient_init_outcome base t w :
  AIClient_init base t w
  = match escapes (net w (List.length (sent w)) (probe_request base)) with
    | Some e => (Raise e, log_request (probe_request base) w)
    | None => (Ret (mkAIClient (rstrip "/" base) t), after_probe base w)
    end.
Proof.
  unfold AIClient_init, _verify_connection, try_except, bind, requests_get,
    requests_request, after_probe, probe_warning, escapes.
  cbn [base_url]. fold (probe_request base).
  destruct (net w (List.length (sent w)) (probe_request base)) as [c msg|r|e].
  - cbn [dispatch]. rewrite requests_exc_is_RequestException. reflexivity.
  - destruct (status_code r =? 200); reflexivity.
  - cbn [dispatch].
    destruct (isinstance e (Requests RequestException)); reflexivity.
Qed.

Lemma AIClient_init_returns base t w :
  escapes (net w (List.length (sent w)) (probe_request base)) = None ->
  AIClient_init base t w = (Ret (mkAIClient (rstrip "/" base) t), after_probe base w).
Proof. intros H. rewrite AIClient_init_outcome, H. reflexivity. Qed.

Lemma AIClient_init_Ret_inv base t w client w1 :
  AIClient_init base t w = (Ret client, w1) ->
  escapes (net w (List.length (sent w)) (probe_request base)) = None
  /\ client = mkAIClient (rstrip "/" base) t
  /\ w1 = after_probe base w.
Proof.
  rewrite AIClient_init_outcome.
  destruct (escapes _) as [e|]; [discriminate|].
  intros H. injection H as <- <-. repeat split.
Qed.

Lemma AIClient_init_Raise_inv base t w e w1 :
  AIClient_init base t w = (Raise e, w1) ->
  escapes (net w (List.length (sent w)) (probe_request base)) = Some e
  /\ w1 = log_request (probe_request base) w.
Proof.
  rewrite AIClient_init_outcome.
  destruct (escapes _) as [e'|]; [|discriminate].
  intros H. injection H as <- <-. split; reflexivity.
Qed.

Lemma after_probe_sent base w :
  sent (after_probe base w) = (sent w ++ [probe_request base])%list.
Proof.
  unfold after_probe.
  destruct (probe_warning _); reflexivity.
Qed.

Lemma after_probe_version base w :
  requests_version (after_probe base w) = requests_version w.
Proof.
  unfold after_probe.
  destruct (probe_warning _); reflexivity.
Qed.

(** C5 as the specification has it fails when the probe call ends in an
    exception that is not a [RequestException]: for a base URL whose host
    has an empty label urllib3's [LocationParseError] leaves
    [requests.get], the handler of [_verify_connection] does not catch it,
    and the constructor raises. *)
Lemma AIClient_init_raises_on_bad_host :
  fst (AIClient_init "http://a..b" 180 bad_host_world)
  = Raise (mkExn LocationParseError
             "Failed to parse: 'a..b', label empty or too long")
  /\ ~ (exists client, fst (AIClient_init "http://a..b" 180 bad_host_world) = Ret client).
Proof.
  split; [reflexivity|].
  intros [client H]. discriminate H.
Qed.

(** C5, amended: constructing a client succeeds whenever the probe, one
    GET to [{base_url}/status] with a timeout of 5 seconds, ends in a
    response or in an exception of [requests]: a transport failure or a
    status other than 200 only prints a warning line, a status of 200
    prints nothing, and the constructor returns the client with the
    normalised base URL and the given timeout.  An exception of another
    class that leaves the probe call is not caught and leaves the
    constructor. *)
Theorem AIClient_init_succeeds_on_probe_failure base t w :
  let probe := mkRequest GET (rstrip "/" base ++ "/status") None 5 in
  let client := mkAIClient (rstrip "/" base) t in
  (forall c msg,
      net w (List.length (sent w)) probe = NetRaise c msg ->
      exists w',
        AIClient_init base t w = (Ret client, w')
        /\ sent w' = (sent w ++ [probe])%list
        /\ stdout w'
           = (stdout w ++ [("Warning: Could not connect to API: " ++ msg)%string])%list)
  /\ (forall r,
      net w (List.length (sent w)) probe = NetResponse r ->
      exists w',
        AIClient_init base t w = (Ret client, w')
        /\ sent w' = (sent w ++ [probe])%list
        /\ stdout w'
           = (stdout w ++
              if status_code r =? 200 then []
              else [("Warning: API returned status code "
                       ++ decimal (status_code r))%string])%list)
  /\ (forall e,
      net w (List.length (sent w)) probe = NetCrash e ->
      isinstance e (Requests RequestException) = false ->
      exists w',
        AIClient_init base t w = (Raise e, w')
        /\ sent w' = (sent w ++ [probe])%list
        /\ stdout w' = stdout w).
Proof.
  intros probe client. change probe with (probe_request base).
  split; [|split].
  - intros c msg H. exists (after_probe base w).
    rewrite AIClient_init_outcome, H. cbn [escapes].
    split; [reflexivity|]. unfold after_probe. rewrite H. split; reflexivity.
  - intros r H. exists (after_probe base w).
    rewrite AIClient_init_outcome, H. cbn [escapes].
    split; [reflexivity|]. unfold after_probe. rewrite H. cbn [probe_warning].
    destruct (status_code r =? 200); split; try reflexivity.
    cbn [stdout log_request]. rewrite app_nil_r. reflexivity.
  - intros e H He. exists (log_request (probe_request base) w).
    rewrite AIClient_init_outcome, H. cbn [escapes]. rewrite He.
    repeat split.
Qed.

Lemma AIClient_init_succeeds_on_probe_failure_witness :
  (exists w',
      AIClient_init "http://vm:8000/" 180
        (always (NetResponse (mkResponse 503 "Service Unavailable"
                                "http://vm:8000/status" (NotJson "Expecting value")))
                Since_2_27)
      = (Ret demo_client, w')
      /\ stdout w' = ["Warning: API returned status code 503"])
  /\ (exists w',
      AIClient_init "http://vm:8000/" 180
        (always (NetRaise ConnectionError "Connection refused") Since_2_27)
      = (Ret demo_client, w')
      /\ stdout w' = ["Warning: Could not connect to API: Connection refused"]).
Proof.
  split.
  - destruct (proj1 (proj2 (AIClient_init_succeeds_on_probe_failure "http://vm:8000/" 180
                      (always (NetResponse (mkResponse 503 "Service Unavailable"
                                              "http://vm:8000/status"
                                              (NotJson "Expecting value")))
                              Since_2_27)))
               (mkResponse 503 "Service Unavailable" "http://vm:8000/status"
                  (NotJson "Expecting value"))
               eq_refl) as [w' [Hinit [_ Hout]]].
    exists w'. split; [exact Hinit|exact Hout].
  - destruct (proj1 (AIClient_init_succeeds_on_probe_failure "http://vm:8000/" 180
                      (always (NetRaise ConnectionError "Connection refused") Since_2_27))
               ConnectionError "Connection refused" eq_refl) as [w' [Hinit [_ Hout]]].
    exists w'. split; [exact Hinit|exact Hout].
Defined.

Example AIClient_init_against_503 :
  let w := always (NetResponse (mkResponse 503 "Service Unavailable"
                                  "http://vm:8000/status" (NotJson "Expecting value")))
                  Since_2_27 in
  fst (AIClient_init "http://vm:8000/" 180 w) = Ret demo_client
  /\ stdout (snd (AIClient_init "http://vm:8000/" 180 w))
     = ["Warning: API returned status code 503"].
Proof. split; reflexivity. Qed.

(** ** Monitoring operations *)

Lemma run_monitoring_unfold op self :
  run_monitoring op self
  = (response <- requests_request (monitoring_request op self) ;;
     raise_for_status response ;;;
     Response_json response).
Proof. destruct op; reflexivity. Qed.

Lemma monitoring_transport_failure op self w c msg :
  net w (List.length (sent w)) (monitoring_request op self) = NetRaise c msg ->
  run_monitoring op self w
  = (Raise (mkExn (Requests c) msg), log_request (monitoring_request op self) w).
Proof.
  intros H. rewrite run_monitoring_unfold. unfold bind.
  rewrite (requests_request_raises _ _ _ _ H). reflexivity.
Qed.

Lemma monitoring_http_error op self w r msg :
  net w (List.length (sent w)) (monitoring_request op self) = NetResponse r ->
  http_error_msg r = Some msg ->
  run_monitoring op self w
  = (Raise (mkExn (Requests HTTPError) msg),
     log_request (monitoring_request op self) w).
Proof.
  intros H Hm. rewrite run_monitoring_unfold. unfold bind.
  rewrite (requests_request_responds _ _ _ H).
  rewrite (raise_for_status_raises _ _ _ Hm). reflexivity.
Qed.

Lemma monitoring_success op self w r v :
  net w (List.length (sent w)) (monitoring_request op self) = NetResponse r ->
  http_error_msg r = None ->
  content r = JsonDoc v ->
  run_monitoring op self w = (Ret v, log_request (monitoring_request op self) w).
Proof.
  intros H Hm Hc. rewrite run_monitoring_unfold. unfold bind.
  rewrite (requests_request_responds _ _ _ H).
  rewrite (raise_for_status_passes _ _ Hm).
  unfold Response_json. rewrite Hc. reflexivity.
Qed.

(** C6 as the specification has it fails on a status that is neither 2xx
    nor 4xx/5xx: [raise_for_status] lets 300 through, and [get_status]
    returns the decoded body instead of raising. *)
Lemma get_status_returns_on_300 :
  let r := mkResponse 300 "Multiple Choices" "http://vm:8000/status"
             (JsonDoc (PDict [("api_status", PStr "running")])) in
  ~ (200 <= status_code r < 300)
  /\ fst (get_status demo_client (always (NetResponse r) Since_2_27))
     = Ret (PDict [("api_status", PStr "running")])
  /\ ~ (exists e, fst (get_status demo_client (always (NetResponse r) Since_2_27))
                  = Raise e).
Proof.
  split; [simpl; lia|]. split; [reflexivity|].
  intros [e He]. discriminate He.
Qed.

(** C6, amended: each of [get_status], [list_projects] and [reload_engine]
    issues one request (GET [/status] and GET [/projects] with a timeout
    of 5 seconds, POST [/reload] with 30), raises the transport failure or
    the [HTTPError] of a 4xx or 5xx status to the caller unchanged, and on
    a response outside 4xx/5xx with a JSON body returns the decoded body
    as it is. *)
Theorem monitoring_raises_or_returns_body op self w :
  let req := match op with
             | GetStatus => mkRequest GET (base_url self ++ "/status") None 5
             | ListProjects => mkRequest GET (base_url self ++ "/projects") None 5
             | ReloadEngine => mkRequest POST (base_url self ++ "/reload") None 30
             end in
  let call := match op with
              | GetStatus => get_status self
              | ListProjects => list_projects self
              | ReloadEngine => reload_engine self
              end in
  (forall c msg,
      net w (List.length (sent w)) req = NetRaise c msg ->
      call w = (Raise (mkExn (Requests c) msg), log_request req w))
  /\ (forall r,
      net w (List.length (sent w)) req = NetResponse r ->
      400 <= status_code r < 600 ->
      exists msg,
        call w = (Raise (mkExn (Requests HTTPError) msg), log_request req w))
  /\ (forall r v,
      net w (List.length (sent w)) req = NetResponse r ->
      ~ (400 <= status_code r < 600) ->
      content r = JsonDoc v ->
      call w = (Ret v, log_request req w)).
Proof.
  intros req call.
  change req with (monitoring_request op self).
  replace call with (run_monitoring op self) by (destruct op; reflexivity).
  repeat split.
  - intros c msg H. apply (monitoring_transport_failure _ _ _ _ _ H).
  - intros r H Hcode. destruct (http_error_msg_4xx_5xx r Hcode) as [msg Hm].
    exists msg. apply (monitoring_http_error _ _ _ _ _ H Hm).
  - intros r v H Hcode Hc.
    apply (monitoring_success _ _ _ _ _ H (http_error_msg_other r Hcode) Hc).
Qed.

Lemma monitoring_raises_or_returns_body_witness :
  (exists msg,
      fst (get_status demo_client
             (always (NetResponse (mkResponse 500 "Internal Server Error"
                                     "http://vm:8000/status" (NotJson "Expecting value")))
                     Since_2_27))
      = Raise (mkExn (Requests HTTPError) msg))
  /\ fst (list_projects demo_client
            (always (NetRaise ConnectTimeout "timed out") Since_2_27))
     = Raise (mkExn (Requests ConnectTimeout) "timed out")
  /\ fst (reload_engine demo_client
            (always (ok_json "http://vm:8000/reload"
                       (PDict [("status", PStr "reloaded")])) Since_2_27))
     = Ret (PDict [("status", PStr "reloaded")]).
Proof.
  split; [|split].
  - destruct (proj1 (proj2 (monitoring_raises_or_returns_body GetStatus demo_client
                      (always (NetResponse (mkResponse 500 "Internal Server Error"
                                              "http://vm:8000/status" (NotJson "Expecting value")))
                              Since_2_27)))
               (mkResponse 500 "Internal Server Error" "http://vm:8000/status" (NotJson "Expecting value"))
               eq_refl ltac:(simpl; lia)) as [msg Hm].
    exists msg. rewrite Hm. reflexivity.
  - rewrite (proj1 (monitoring_raises_or_returns_body ListProjects demo_client
                      (always (NetRaise ConnectTimeout "timed out") Since_2_27))
               ConnectTimeout "timed out" eq_refl).
    reflexivity.
  - rewrite (proj2 (proj2 (monitoring_raises_or_returns_body ReloadEngine demo_client
                      (always (ok_json "http://vm:8000/reload"
                                 (PDict [("status", PStr "reloaded")])) Since_2_27)))
               (mkResponse 200 "OK" "http://vm:8000/reload"
                  (JsonDoc (PDict [("status", PStr "reloaded")])))
               (PDict [("status", PStr "reloaded")])
               eq_refl ltac:(simpl; lia) eq_refl).
    reflexivity.
Defined.

(** ** [quick_chat] *)

Lemma after_probe_net base w : net (after_probe base w) = net w.
Proof.
  unfold after_probe.
  destruct (probe_warning _); reflexivity.
Qed.

Lemma after_probe_next base w :
  List.length (sent (after_probe base w)) = S (List.length (sent w)).
Proof.
  rewrite after_probe_sent, length_app. simpl. lia.
Qed.

Lemma quick_chat_outcome repr_other prompt base project_url images w :
  quick_chat repr_other prompt base project_url images w
  = match escapes (net w (List.length (sent w)) (probe_request base)) with
    | Some e => (Raise e, log_request (probe_request base) w)
    | None =>
        match chat (mkAIClient (rstrip "/" base) default_timeout)
                prompt project_url images (after_probe base w) with
        | (Ret r, w') =>
            (Ret (if success r then response r
                  else PStr ("Error: " ++ py_str repr_other (error r))), w')
        | (Raise e, w') => (Raise e, w')
        end
    end.
Proof.
  unfold quick_chat. unfold bind at 1.
  rewrite AIClient_init_outcome.
  destruct (escapes _) as [e|]; [reflexivity|].
  unfold bind, ret.
  destruct (chat _ _ _ _ _) as [[r|e] w']; reflexivity.
Qed.

(** The constructor returned. *)
Lemma constructed_escapes base t w :
  (exists client, fst (AIClient_init base t w) = Ret client) ->
  escapes (net w (List.length (sent w)) (probe_request base)) = None.
Proof.
  intros [client H]. rewrite AIClient_init_outcome in H.
  destruct (escapes _) as [e|]; [discriminate H|reflexivity].
Qed.

Lemma quick_chat_unfold repr_other prompt base project_url images w :
  (exists client, fst (AIClient_init base default_timeout w) = Ret client) ->
  quick_chat repr_other prompt base project_url images w
  = match chat (mkAIClient (rstrip "/" base) default_timeout)
            prompt project_url images (after_probe base w) with
    | (Ret r, w') =>
        (Ret (if success r then response r
              else PStr ("Error: " ++ py_str repr_other (error r))), w')
    | (Raise e, w') => (Raise e, w')
    end.
Proof.
  intros H. rewrite quick_chat_outcome, (constructed_escapes _ _ _ H). reflexivity.
Qed.

Lemma quick_chat_answer prompt base project_url images w :
  net (after_probe base w) (List.length (sent (after_probe base w)))
    (chat_request (mkAIClient (rstrip "/" base) default_timeout) prompt project_url images)
  = net w (S (List.length (sent w))) (quick_chat_request prompt base project_url images).
Proof. rewrite after_probe_net, after_probe_next. reflexivity. Qed.

(** C3: [quick_chat] constructs a client (default timeout, one probe),
    calls [chat] once, and returns the result's [response] when the result
    is successful and otherwise the string ["Error: "] followed by the
    result's error.  No network-layer problem makes it raise: a probe that
    ends in a response or a [requests] exception lets the constructor
    return, and a transport failure, a timeout or a 4xx/5xx status of the
    chat request gives an ["Error: ..."] string.  The value returned is a
    field or a string, never the [ChatResponse] itself. *)
Theorem quick_chat_returns_text_or_error
    repr_other prompt base project_url images w :
  (forall o,
      net w (List.length (sent w)) (mkRequest GET (rstrip "/" base ++ "/status") None 5)
        = o ->
      (exists c msg, o = NetRaise c msg) \/ (exists r, o = NetResponse r) ->
      exists client w1, AIClient_init base 180 w = (Ret client, w1))
  /\ (forall client w1,
      AIClient_init base 180 w = (Ret client, w1) ->
      (forall r w2,
          chat client prompt project_url images w1 = (Ret r, w2) ->
          quick_chat repr_other prompt base project_url images w
          = (Ret (if success r then response r
                  else PStr ("Error: " ++ py_str repr_other (error r))), w2))
      /\ (forall r w2 msg,
          chat client prompt project_url images w1 = (Ret r, w2) ->
          success r = false -> error r = PStr msg ->
          quick_chat repr_other prompt base project_url images w
          = (Ret (PStr ("Error: " ++ msg)), w2))
      /\ (forall c msg,
          net w1 (List.length (sent w1)) (chat_request client prompt project_url images)
            = NetRaise c msg ->
          fst (quick_chat repr_other prompt base project_url images w)
          = Ret (PStr ("Error: " ++
                       if isinstance (mkExn (Requests c) msg) (Requests Timeout)
                       then "Request timeout - AI taking too long to respond"
                       else "Request failed: " ++ msg)))
      /\ (forall r,
          net w1 (List.length (sent w1)) (chat_request client prompt project_url images)
            = NetResponse r ->
          400 <= status_code r < 600 ->
          exists details,
            fst (quick_chat repr_other prompt base project_url images w)
            = Ret (PStr ("Error: Request failed: " ++ details)))).
Proof.
  split.
  - intros o Ho Hkind. fold (probe_request base) in Ho.
    exists (mkAIClient (rstrip "/" base) 180), (after_probe base w).
    apply AIClient_init_returns. rewrite Ho.
    destruct Hkind as [[c [msg ->]]|[r ->]]; reflexivity.
  - intros client w1 Hinit.
    assert (Hc : exists cl, fst (AIClient_init base default_timeout w) = Ret cl)
      by (exists client; change default_timeout with 180; rewrite Hinit; reflexivity).
    apply AIClient_init_Ret_inv in Hinit. destruct Hinit as [_ [-> ->]].
    split; [|split; [|split]].
    + intros r w2 H. rewrite (quick_chat_unfold _ _ _ _ _ _ Hc).
      change default_timeout with 180. rewrite H. reflexivity.
    + intros r w2 msg H Hs He. rewrite (quick_chat_unfold _ _ _ _ _ _ Hc).
      change default_timeout with 180. rewrite H, Hs, He. reflexivity.
    + intros c msg H. rewrite (quick_chat_unfold _ _ _ _ _ _ Hc).
      change default_timeout with 180.
      rewrite (chat_transport_failure _ _ _ _ _ _ _ H), isinstance_Timeout.
      destruct (is_timeout c); reflexivity.
    + intros r H Hcode. destruct (http_error_msg_4xx_5xx r Hcode) as [details Hd].
      exists details. rewrite (quick_chat_unfold _ _ _ _ _ _ Hc).
      change default_timeout with 180.
      rewrite (chat_http_error _ _ _ _ _ _ _ H Hd). reflexivity.
Qed.

Lemma quick_chat_returns_text_or_error_witness :
  fst (quick_chat repr_stub "What is AI?" "http://vm:8000/" None None
         (probe_then (NetResponse (mkResponse 503 "Service Unavailable"
                                     "http://vm:8000/status" (NotJson "Expecting value")))
                     (NetRaise ConnectionError "Connection refused")
                     Since_2_27))
  = Ret (PStr "Error: Request failed: Connection refused")
  /\ fst (quick_chat repr_stub "What is AI?" "http://vm:8000/" None None
            (always (ok_json "http://vm:8000/chat"
                       (PDict [("status", PStr "success"); ("response", PStr "X")]))
                    Since_2_27))
     = Ret (PStr "X")
  /\ fst (quick_chat repr_stub "What is AI?" "http://vm:8000/" None None
            (always (ok_json "http://vm:8000/chat"
                       (PDict [("status", PStr "error"); ("error", PStr "NOT_LOGGED_IN")]))
                    Since_2_27))
     = Ret (PStr "Error: NOT_LOGGED_IN")
  /\ (exists client w1,
        AIClient_init "http://vm:8000/" 180
          (always (NetRaise ConnectionError "Connection refused") Since_2_27)
        = (Ret client, w1)).
Proof.
  split; [|split; [|split]].
  - destruct (proj2 (quick_chat_returns_text_or_error repr_stub "What is AI?"
                "http://vm:8000/" None None
                (probe_then (NetResponse (mkResponse 503 "Service Unavailable"
                                            "http://vm:8000/status"
                                            (NotJson "Expecting value")))
                            (NetRaise ConnectionError "Connection refused")
                            Since_2_27))
                demo_client _ eq_refl)
      as [_ [_ [Hfail _]]].
    rewrite (Hfail ConnectionError "Connection refused" eq_refl).
    reflexivity.
  - destruct (proj2 (quick_chat_returns_text_or_error repr_stub "What is AI?"
                "http://vm:8000/" None None
                (always (ok_json "http://vm:8000/chat"
                           (PDict [("status", PStr "success"); ("response", PStr "X")]))
                        Since_2_27))
                demo_client _ eq_refl)
      as [Hret _].
    rewrite (Hret (mkChatResponse (PStr "success") PNone (PStr "X") PNone PNone)
               _ eq_refl).
    reflexivity.
  - destruct (proj2 (quick_chat_returns_text_or_error repr_stub "What is AI?"
                "http://vm:8000/" None None
                (always (ok_json "http://vm:8000/chat"
                           (PDict [("status", PStr "error");
                                   ("error", PStr "NOT_LOGGED_IN")]))
                        Since_2_27))
                demo_client _ eq_refl)
      as [_ [Herr _]].
    rewrite (Herr (mkChatResponse (PStr "error") PNone PNone (PStr "NOT_LOGGED_IN") PNone)
               _ "NOT_LOGGED_IN" eq_refl eq_refl eq_refl).
    reflexivity.
  - apply (proj1 (quick_chat_returns_text_or_error repr_stub "What is AI?"
                    "http://vm:8000/" None None
                    (always (NetRaise ConnectionError "Connection refused") Since_2_27))
             (NetRaise ConnectionError "Connection refused") eq_refl).
    left. exists ConnectionError, "Connection refused". reflexivity.
Defined.

(** C10: when the constructor has returned and the body of the chat
    response has status ["success"] and no [response] entry, [quick_chat]
    returns [None], which is not a string. *)
Theorem quick_chat_returns_None_without_response
    repr_other prompt base project_url images w r items :
  (exists client, fst (AIClient_init base default_timeout w) = Ret client) ->
  net w (S (List.length (sent w))) (quick_chat_request prompt base project_url images)
    = NetResponse r ->
  ~ (400 <= status_code r < 600) ->
  content r = JsonDoc (PDict items) ->
  lookup "status" items = Some (PStr "success") ->
  lookup "response" items = None ->
  fst (quick_chat repr_other prompt base project_url images w) = Ret PNone
  /\ (forall s, fst (quick_chat repr_other prompt base project_url images w)
                <> Ret (PStr s)).
Proof.
  intros Hinit H Hcode Hc Hst Hresp.
  assert (Hq : fst (quick_chat repr_other prompt base project_url images w) = Ret PNone).
  { rewrite (quick_chat_unfold _ _ _ _ _ _ Hinit).
    rewrite <- quick_chat_answer in H.
    rewrite (chat_json_object _ _ _ _ _ _ _ H (http_error_msg_other r Hcode) Hc).
    unfold success, dict_get. cbn [status response].
    rewrite Hst, Hresp. reflexivity. }
  split; [exact Hq|].
  intros s Hs. rewrite Hq in Hs. discriminate Hs.
Qed.

Lemma quick_chat_returns_None_without_response_witness :
  fst (quick_chat repr_stub "What is AI?" "http://vm:8000" None None
         (always (ok_json "http://vm:8000/chat" (PDict [("status", PStr "success")]))
                 Since_2_27))
  = Ret PNone.
Proof.
  apply (quick_chat_returns_None_without_response repr_stub "What is AI?"
           "http://vm:8000" None None
           (always (ok_json "http://vm:8000/chat" (PDict [("status", PStr "success")]))
                   Since_2_27)
           (mkResponse 200 "OK" "http://vm:8000/chat"
              (JsonDoc (PDict [("status", PStr "success")])))
           [("status", PStr "success")]).
  - exists (mkAIClient "http://vm:8000" 180). reflexivity.
  - reflexivity.
  - simpl. lia.
  - reflexivity.
  - reflexivity.
  - reflexivity.
Defined.

(** ** [encode_image] and base64 *)

Section Base64.

Local Open Scope list_scope.

Lemma byte_to_Z_range (b : byte) : 0 <= byte_to_Z b < 256.
Proof.
  unfold byte_to_Z. pose proof (Byte.to_N_bounded b) as H. lia.
Qed.

Lemma byte_of_to_Z (b : byte) : byte_of_Z (byte_to_Z b) = Some b.
Proof.
  unfold byte_of_Z, byte_to_Z. rewrite N2Z.id. apply Byte.of_to_N.
Qed.

Lemma list_ind3 (A : Type) (P : list A -> Prop) :
  P [] ->
  (forall a, P [a]) ->
  (forall a b, P [a; b]) ->
  (forall a b c rest, P rest -> P (a :: b :: c :: rest)) ->
  forall l, P l.
Proof.
  intros H0 H1 H2 H3.
  assert (Hall : forall l, P l /\ (forall a, P (a :: l)) /\ (forall a b, P (a :: b :: l))).
  { induction l as [|x l [IH0 [IH1 IH2]]].
    - repeat split; auto.
    - repeat split; auto. }
  intros l. apply Hall.
Qed.

Lemma sextet_in (n : Z) : 0 <= n < 64 -> In n sextets.
Proof.
  intros H. unfold sextets. apply in_map_iff. exists (Z.to_nat n).
  split; [lia|]. apply in_seq. lia.
Qed.

Lemma b64_index_char (n : Z) : 0 <= n < 64 -> b64_index (b64_char n) = Some n.
Proof.
  intros H.
  assert (Hall : forallb (fun k => match b64_index (b64_char k) with
                                   | Some m => m =? k
                                   | None => false
                                   end) sextets = true) by (vm_compute; reflexivity).
  rewrite forallb_forall in Hall. specialize (Hall n (sextet_in n H)).
  destruct (b64_index (b64_char n)) as [m|]; [|discriminate].
  apply Z.eqb_eq in Hall. congruence.
Qed.

Lemma b64_index_pad : b64_index b64_pad = None.
Proof. reflexivity. Qed.

Lemma b64_char_ascii (n : Z) : is_ascii (b64_char n) = true.
Proof.
  unfold b64_char.
  destruct (nth_in_or_default (Z.to_nat n) b64_alphabet b64_pad) as [Hin|Hd].
  - assert (Hall : forallb is_ascii b64_alphabet = true) by (vm_compute; reflexivity).
    rewrite forallb_forall in Hall. apply Hall, Hin.
  - rewrite Hd. reflexivity.
Qed.

Lemma b64encode_ascii (data : list byte) :
  forallb is_ascii (b64encode data) = true.
Proof.
  induction data as [|a|a b|a b c rest IH] using list_ind3;
    cbn [b64encode forallb]; rewrite ?b64_char_ascii, ?IH; reflexivity.
Qed.

Lemma utf8_valid_ascii (bs : list byte) :
  forallb is_ascii bs = true -> utf8_valid (map byte_to_Z bs) = true.
Proof.
  induction bs as [|b bs IH]; [reflexivity|].
  cbn [forallb map]. intros H. apply andb_true_iff in H as [Hb Hbs].
  unfold is_ascii in Hb. cbn [utf8_valid]. rewrite Hb. apply IH, Hbs.
Qed.

(** Arithmetic of one group: the four sextets carry the three bytes. *)
Lemma group3_arith (x y z : Z) :
  0 <= x < 256 -> 0 <= y < 256 -> 0 <= z < 256 ->
  let n := x * 65536 + y * 256 + z in
  let s1 := n / 262144 in
  let s2 := (n / 4096) mod 64 in
  let s3 := (n / 64) mod 64 in
  let s4 := n mod 64 in
  let m := ((s1 * 64 + s2) * 64 + s3) * 64 + s4 in
  (0 <= s1 < 64 /\ 0 <= s2 < 64 /\ 0 <= s3 < 64 /\ 0 <= s4 < 64)
  /\ m / 65536 = x /\ (m / 256) mod 256 = y /\ m mod 256 = z.
Proof.
  intros Hx Hy Hz n s1 s2 s3 s4 m.
  assert (Hm : m = n) by (subst m s1 s2 s3 s4; Z.div_mod_to_equations; lia).
  rewrite Hm. subst s1 s2 s3 s4 n.
  repeat split; Z.div_mod_to_equations; lia.
Qed.

Lemma group2_arith (x y : Z) :
  0 <= x < 256 -> 0 <= y < 256 ->
  let n := x * 256 + y in
  let s1 := n / 1024 in
  let s2 := (n / 16) mod 64 in
  let s3 := (n mod 16) * 4 in
  let m := (s1 * 64 + s2) * 64 + s3 in
  (0 <= s1 < 64 /\ 0 <= s2 < 64 /\ 0 <= s3 < 64)
  /\ m / 1024 = x /\ (m / 4) mod 256 = y.
Proof.
  intros Hx Hy n s1 s2 s3 m.
  assert (Hm : m = n * 4) by (subst m s1 s2 s3; Z.div_mod_to_equations; lia).
  rewrite Hm. subst s1 s2 s3 n.
  repeat split; Z.div_mod_to_equations; lia.
Qed.

Lemma group1_arith (x : Z) :
  0 <= x < 256 ->
  let s1 := x / 4 in
  let s2 := (x mod 4) * 16 in
  let m := s1 * 64 + s2 in
  (0 <= s1 < 64 /\ 0 <= s2 < 64) /\ m / 16 = x.
Proof.
  intros Hx s1 s2 m. subst m s1 s2.
  repeat split; Z.div_mod_to_equations; lia.
Qed.

Lemma b64decode_bytes_group c1 c2 c3 c4 rest i1 i2 i3 i4 :
  b64_index c1 = Some i1 -> b64_index c2 = Some i2 ->
  b64_index c3 = Some i3 -> b64_index c4 = Some i4 ->
  b64decode_bytes (c1 :: c2 :: c3 :: c4 :: rest)
  = let n := ((i1 * 64 + i2) * 64 + i3) * 64 + i4 in
    match bytes_of_Zs [n / 65536; (n / 256) mod 256; n mod 256],
          b64decode_bytes rest with
    | Some group, Some tail => Some (group ++ tail)
    | _, _ => None
    end.
Proof.
  intros H1 H2 H3 H4. cbn [b64decode_bytes]. rewrite H1, H2, H3, H4. reflexivity.
Qed.

Lemma b64decode_b64encode (data : list byte) :
  b64decode_bytes (b64encode data) = Some data.
Proof.
  induction data as [|a|a b|a b c rest IH] using list_ind3.
  - reflexivity.
  - cbn [b64encode].
    destruct (group1_arith _ (byte_to_Z_range a)) as [[Hs1 Hs2] Hx].
    cbn [b64decode_bytes].
    rewrite (b64_index_char _ Hs1), (b64_index_char _ Hs2), b64_index_pad.
    cbn [Byte.eqb andb]. change (Byte.eqb b64_pad b64_pad) with true.
    cbn [andb bytes_of_Zs fold_right]. rewrite Hx, byte_of_to_Z. reflexivity.
  - cbn [b64encode].
    destruct (group2_arith _ _ (byte_to_Z_range a) (byte_to_Z_range b))
      as [[Hs1 [Hs2 Hs3]] [Hx Hy]].
    cbn [b64decode_bytes].
    rewrite (b64_index_char _ Hs1), (b64_index_char _ Hs2), (b64_index_char _ Hs3),
      b64_index_pad.
    change (Byte.eqb b64_pad b64_pad) with true.
    cbn [bytes_of_Zs fold_right]. rewrite Hx, Hy, !byte_of_to_Z. reflexivity.
  - cbn [b64encode].
    destruct (group3_arith _ _ _ (byte_to_Z_range a) (byte_to_Z_range b)
                (byte_to_Z_range c))
      as [[Hs1 [Hs2 [Hs3 Hs4]]] [Hx [Hy Hz]]].
    rewrite (b64decode_bytes_group _ _ _ _ _ _ _ _ _
               (b64_index_char _ Hs1) (b64_index_char _ Hs2)
               (b64_index_char _ Hs3) (b64_index_char _ Hs4)).
    cbn zeta. cbn [bytes_of_Zs fold_right].
    rewrite Hx, Hy, Hz, !byte_of_to_Z, IH. reflexivity.
Qed.

Lemma encode_image_reads path w data :
  fs w path = Some data ->
  encode_image path w = (Ret (string_of_list_byte (b64encode data)), w).
Proof.
  intros H. unfold encode_image, bind, open_rb_read. rewrite H.
  unfold bytes_decode_utf8.
  rewrite (utf8_valid_ascii _ (b64encode_ascii data)). reflexivity.
Qed.

Lemma encode_image_missing path w :
  fs w path = None ->
  encode_image path w
  = (Raise (mkExn FileNotFoundError
              ("[Errno 2] No such file or directory: '" ++ path ++ "'")%string), w).
Proof.
  intros H. unfold encode_image, bind, open_rb_read. rewrite H. reflexivity.
Qed.

End Base64.

(** C7: for a file that exists, [encode_image] returns a string whose
    base64 decoding is exactly the file's bytes; for a path that does not
    exist the call raises [FileNotFoundError] to the caller, and nothing
    in the world changes either way. *)
Theorem encode_image_roundtrip path w :
  (forall data, fs w path = Some data ->
     exists s, encode_image path w = (Ret s, w) /\ b64decode s = Some data)
  /\ (fs w path = None ->
      exists msg, encode_image path w = (Raise (mkExn FileNotFoundError msg), w)).
Proof.
  split.
  - intros data H. exists (string_of_list_byte (b64encode data)).
    split; [apply (encode_image_reads _ _ _ H)|].
    unfold b64decode. rewrite list_byte_of_string_of_list_byte.
    apply b64decode_b64encode.
  - intros H. eexists. apply (encode_image_missing _ _ H).
Qed.

Lemma encode_image_roundtrip_witness :
  (exists s, encode_image "photo.jpg"
               (one_file "photo.jpg" [xff; xd8; xff; xe0; x00]%byte)
             = (Ret s, one_file "photo.jpg" [xff; xd8; xff; xe0; x00]%byte)
             /\ b64decode s = Some [xff; xd8; xff; xe0; x00]%byte)
  /\ (exists msg, fst (encode_image "missing.png" (one_file "photo.jpg" []))
                  = Raise (mkExn FileNotFoundError msg)).
Proof.
  split.
  - apply (proj1 (encode_image_roundtrip "photo.jpg"
                    (one_file "photo.jpg" [xff; xd8; xff; xe0; x00]%byte))).
    reflexivity.
  - destruct (proj2 (encode_image_roundtrip "missing.png" (one_file "photo.jpg" []))
                eq_refl) as [msg Hm].
    exists msg. rewrite Hm. reflexivity.
Defined.

(** * Further properties of the client *)

(** ** Normalisation of the base URL *)

Lemma rstrip_last (c : ascii) (s : string) : last_char (rstrip c s) <> Some c.
Proof.
  induction s as [|a rest IH]; [discriminate|].
  cbn [rstrip]. destruct (rstrip c rest) as [|b r] eqn:E.
  - destruct (Ascii.eqb a c) eqn:Eac; [discriminate|].
    cbn [last_char]. intros H. injection H as ->.
    rewrite Ascii.eqb_refl in Eac. discriminate.
  - exact IH.
Qed.

Lemma rstrip_decompose (c : ascii) (s : string) :
  exists k, s = rstrip c s ++ str_mul (String c EmptyString) k.
Proof.
  induction s as [|a rest [k IH]].
  - exists O. reflexivity.
  - cbn [rstrip]. destruct (rstrip c rest) as [|b r] eqn:E.
    + destruct (Ascii.eqb a c) eqn:Eac.
      * apply Ascii.eqb_eq in Eac. subst a. exists (S k).
        cbn [str_mul append]. rewrite IH at 1. reflexivity.
      * exists k. cbn [append]. rewrite IH at 1. reflexivity.
    + exists k. cbn [append]. rewrite IH at 1. reflexivity.
Qed.

Lemma rstrip_app_char (c : ascii) (s : string) :
  rstrip c (s ++ String c EmptyString) = rstrip c s.
Proof.
  induction s as [|a rest IH].
  - cbn. rewrite Ascii.eqb_refl. reflexivity.
  - cbn [append rstrip]. rewrite IH. reflexivity.
Qed.

Lemma rstrip_unchanged (c : ascii) (s : string) :
  last_char s <> Some c -> rstrip c s = s.
Proof.
  induction s as [|a rest IH]; [reflexivity|].
  intros H. cbn [rstrip]. destruct rest as [|b r].
  - cbn [rstrip]. destruct (Ascii.eqb a c) eqn:Eac; [|reflexivity].
    apply Ascii.eqb_eq in Eac. subst a. exfalso. apply H. reflexivity.
  - rewrite IH by exact H. reflexivity.
Qed.

(** X1: a constructor that returns has stored the base URL with exactly
    its trailing slashes removed: the argument is the stored URL followed
    by some number of ["/"], the stored URL does not end in ["/"], and the
    timeout is stored as given. *)
Theorem AIClient_init_strips_trailing_slashes base t w client w' :
  AIClient_init base t w = (Ret client, w') ->
  exists k,
    base = base_url client ++ str_mul "/" k
    /\ last_char (base_url client) <> Some "/"%char
    /\ timeout client = t.
Proof.
  intros H. apply AIClient_init_Ret_inv in H. destruct H as [_ [-> _]].
  destruct (rstrip_decompose "/" base) as [k Hk].
  exists k. split; [exact Hk|].
  split; [apply rstrip_last|reflexivity].
Qed.

Lemma AIClient_init_strips_trailing_slashes_witness :
  exists k,
    "http://vm:8000//" = "http://vm:8000" ++ str_mul "/" k
    /\ last_char "http://vm:8000" <> Some "/"%char
    /\ 60 = 60.
Proof.
  apply (AIClient_init_strips_trailing_slashes "http://vm:8000//" 60
           (always (NetRaise ConnectionError "refused") Since_2_27)
           (mkAIClient "http://vm:8000" 60) _ eq_refl).
Defined.

(** X2: a trailing slash on the base URL makes no difference: the same
    client is built, the same probe is sent and the same world results. *)
Theorem AIClient_init_ignores_trailing_slash base t w :
  AIClient_init (base ++ "/") t w = AIClient_init base t w.
Proof.
  rewrite !AIClient_init_outcome.
  unfold after_probe, probe_request.
  rewrite rstrip_app_char. reflexivity.
Qed.

(** X3: for a base URL that does not end in ["/"] the probe goes to that
    URL followed by ["/status"], and a constructor that returns has stored
    the URL unchanged. *)
Theorem AIClient_init_keeps_clean_url base t w :
  last_char base <> Some "/"%char ->
  sent (snd (AIClient_init base t w))
  = (sent w ++ [mkRequest GET (base ++ "/status") None 5])%list
  /\ (forall client w',
        AIClient_init base t w = (Ret client, w') -> client = mkAIClient base t).
Proof.
  intros H. split.
  - rewrite AIClient_init_outcome.
    destruct (escapes _); cbn [snd]; [|rewrite after_probe_sent];
      unfold probe_request; rewrite (rstrip_unchanged _ _ H); reflexivity.
  - intros client w' Hinit. apply AIClient_init_Ret_inv in Hinit.
    destruct Hinit as [_ [-> _]]. rewrite (rstrip_unchanged _ _ H). reflexivity.
Qed.

Lemma AIClient_init_keeps_clean_url_witness :
  sent (snd (AIClient_init "http://vm:8000" 60
               (always (NetRaise ConnectionError "refused") Since_2_27)))
  = [mkRequest GET "http://vm:8000/status" None 5]
  /\ mkAIClient "http://vm:8000" 60 = mkAIClient "http://vm:8000" 60.
Proof.
  destruct (AIClient_init_keeps_clean_url "http://vm:8000" 60
              (always (NetRaise ConnectionError "refused") Since_2_27)
              ltac:(simpl; discriminate)) as [Hsent Hclient].
  split; [exact Hsent|].
  apply (Hclient (mkAIClient "http://vm:8000" 60) _ eq_refl).
Defined.

(** ** What the operations do to the world *)

Lemma monitoring_world op self w :
  snd (run_monitoring op self w) = log_request (monitoring_request op self) w.
Proof.
  rewrite run_monitoring_unfold. unfold bind, requests_request.
  destruct (net w (List.length (sent w)) _) as [c msg|r|e];
    [reflexivity| |reflexivity].
  unfold raise_for_status.
  destruct (http_error_msg r) as [m|]; [reflexivity|].
  unfold ret, Response_json. destruct (content r); reflexivity.
Qed.

(** X4: whatever the server answers and whether they return or raise,
    [chat], [get_status], [list_projects] and [reload_engine] each issue
    exactly one request and do nothing else: nothing is printed and no
    request is retried. *)
Theorem operations_issue_one_request self prompt project_url images w :
  (sent (snd (chat self prompt project_url images w))
   = (sent w ++ [chat_request self prompt project_url images])%list
   /\ stdout (snd (chat self prompt project_url images w)) = stdout w)
  /\ (sent (snd (get_status self w))
      = (sent w ++ [mkRequest GET (base_url self ++ "/status") None 5])%list
      /\ stdout (snd (get_status self w)) = stdout w)
  /\ (sent (snd (list_projects self w))
      = (sent w ++ [mkRequest GET (base_url self ++ "/projects") None 5])%list
      /\ stdout (snd (list_projects self w)) = stdout w)
  /\ (sent (snd (reload_engine self w))
      = (sent w ++ [mkRequest POST (base_url self ++ "/reload") None 30])%list
      /\ stdout (snd (reload_engine self w)) = stdout w).
Proof.
  split; [rewrite chat_world; split; reflexivity|].
  split; [|split].
  - rewrite (monitoring_world GetStatus). split; reflexivity.
  - rewrite (monitoring_world ListProjects). split; reflexivity.
  - rewrite (monitoring_world ReloadEngine). split; reflexivity.
Qed.

(** ** What [chat] can raise *)

(** X5: [chat] lets no [requests] exception escape.  An exception that
    leaves it is not an instance of [RequestException], and it is one of:
    the exception with which the call of [requests.post] itself ended,
    the exception the decoder raised on an accepted response (its
    [JSONDecodeError] only under requests before 2.27), or the
    [AttributeError] of a JSON body that is not an object. *)
Theorem chat_lets_no_requests_exception_escape
    self prompt project_url images w e :
  fst (chat self prompt project_url images w) = Raise e ->
  isinstance e (Requests RequestException) = false
  /\ (net w (List.length (sent w)) (chat_request self prompt project_url images)
      = NetCrash e
      \/ exists r,
          net w (List.length (sent w)) (chat_request self prompt project_url images)
            = NetResponse r
          /\ ~ (400 <= status_code r < 600)
          /\ (content r = DecoderRaises e
              \/ (exists msg, content r = NotJson msg
                    /\ requests_version w = Before_2_27
                    /\ e = mkExn JSONDecodeError msg)
              \/ (exists v, content r = JsonDoc v
                    /\ (forall items, v <> PDict items)
                    /\ exn_class e = AttributeError))).
Proof.
  enter_chat. unfold requests_request.
  destruct (net w (List.length (sent w)) _) as [c msg|r|e0] eqn:Hnet.
  - cbn [dispatch]. rewrite isinstance_Timeout.
    destruct (is_timeout c); [discriminate|].
    rewrite requests_exc_is_RequestException. discriminate.
  - unfold raise_for_status.
    destruct (http_error_msg r) as [m|] eqn:Hm; [discriminate|].
    assert (Hcode : ~ (400 <= status_code r < 600)).
    { intros Hcode. destruct (http_error_msg_4xx_5xx r Hcode) as [m Hm'].
      congruence. }
    cbn beta iota. unfold ret at 1. cbn beta iota.
    unfold Response_json.
    destruct (content r) as [v|m|e0] eqn:Hc.
    + destruct v eqn:Hv; intros H; cbn in H; try discriminate; injection H as <-;
        (split; [reflexivity|]); right; exists r; (split; [reflexivity|]);
        (split; [exact Hcode|]); right; right; eexists;
        (split; [exact Hc|]); (split; [discriminate|reflexivity]).
    + cbn [requests_version log_request].
      destruct (requests_version w) eqn:Hv; intros H; cbn in H; try discriminate.
      injection H as <-. split; [reflexivity|]. right. exists r.
      split; [reflexivity|]. split; [exact Hcode|]. right. left.
      exists m. repeat split; assumption.
    + cbn [dispatch].
      destruct (isinstance e0 (Requests Timeout)); [discriminate|].
      destruct (isinstance e0 (Requests RequestException)) eqn:He; [discriminate|].
      intros H. cbn in H. injection H as <-. split; [exact He|]. right. exists r.
      split; [reflexivity|]. split; [exact Hcode|]. left. exact Hc.
  - cbn [dispatch].
    destruct (isinstance e0 (Requests Timeout)); [discriminate|].
    destruct (isinstance e0 (Requests RequestException)) eqn:He; [discriminate|].
    intros H. cbn in H. injection H as <-. split; [exact He|]. left. reflexivity.
Qed.

Lemma chat_lets_no_requests_exception_escape_witness :
  isinstance (mkExn ValueError
                "Attempted to set connect timeout to 0, but the timeout cannot be set to a value less than or equal to 0.")
    (Requests RequestException) = false.
Proof.
  apply (chat_lets_no_requests_exception_escape (mkAIClient "http://vm:8000" 0)
           "Hello" None None
           (always (NetCrash (mkExn ValueError
                      "Attempted to set connect timeout to 0, but the timeout cannot be set to a value less than or equal to 0."))
                   Since_2_27)
           (mkExn ValueError
              "Attempted to set connect timeout to 0, but the timeout cannot be set to a value less than or equal to 0.")).
  reflexivity.
Defined.

(** ** [chat] followed by [success] and [__str__] *)

Lemma str_append_assoc (a b c : string) : (a ++ b) ++ c = a ++ (b ++ c).
Proof.
  induction a as [|x a IH]; [reflexivity|].
  cbn [append]. rewrite IH. reflexivity.
Qed.

(** X6: for a response that [raise_for_status] accepts and whose body is
    a JSON object, the result of [chat] is successful exactly when the
    body's [status] entry is the string ["success"]; a body without a
    [status] entry is never successful. *)
Theorem chat_success_iff_body_status
    self prompt project_url images w r items :
  net w (List.length (sent w)) (chat_request self prompt project_url images)
    = NetResponse r ->
  ~ (400 <= status_code r < 600) ->
  content r = JsonDoc (PDict items) ->
  exists res,
    fst (chat self prompt project_url images w) = Ret res
    /\ (success res = true <-> lookup "status" items = Some (PStr "success"))
    /\ (lookup "status" items = None -> success res = false).
Proof.
  intros H Hcode Hc.
  rewrite (chat_json_object _ _ _ _ _ _ _ H (http_error_msg_other r Hcode) Hc).
  eexists. split; [reflexivity|].
  unfold success, dict_get. cbn [status].
  destruct (lookup "status" items) as [v|].
  - split; [|discriminate]. split.
    + destruct v; cbn; intros E; try discriminate.
      apply String.eqb_eq in E. subst. reflexivity.
    + intros E. injection E as ->. reflexivity.
  - split; [|reflexivity]. split; discriminate.
Qed.

Lemma chat_success_iff_body_status_witness :
  exists res,
    fst (chat demo_client "Hello" None None
           (always (ok_json "http://vm:8000/chat" (PDict [("response", PStr "Hi")]))
                   Since_2_27)) = Ret res
    /\ success res = false.
Proof.
  destruct (chat_success_iff_body_status demo_client "Hello" None None
              (always (ok_json "http://vm:8000/chat" (PDict [("response", PStr "Hi")]))
                      Since_2_27)
              (mkResponse 200 "OK" "http://vm:8000/chat"
                 (JsonDoc (PDict [("response", PStr "Hi")])))
              [("response", PStr "Hi")]
              eq_refl ltac:(simpl; lia) eq_refl) as [res [Hres [_ Hnone]]].
  exists res. split; [exact Hres|]. apply Hnone. reflexivity.
Defined.

(** X7: the string form of the result of a [chat] that met a transport
    failure is ["[ERROR] "] followed by the error text: the fixed timeout
    sentence for a timeout, ["Request failed: "] and the exception text
    otherwise. *)
Theorem chat_failure_str repr_other self prompt project_url images w c msg :
  net w (List.length (sent w)) (chat_request self prompt project_url images)
    = NetRaise c msg ->
  exists res,
    fst (chat self prompt project_url images w) = Ret res
    /\ success res = false
    /\ ChatResponse_str repr_other res
       = "[ERROR] " ++ (if isinstance (mkExn (Requests c) msg) (Requests Timeout)
                        then "Request timeout - AI taking too long to respond"
                        else "Request failed: " ++ msg).
Proof.
  intros H. rewrite (chat_transport_failure _ _ _ _ _ _ _ H), isinstance_Timeout.
  eexists. split; [reflexivity|].
  destruct (is_timeout c); split; reflexivity.
Qed.

Lemma chat_failure_str_witness :
  exists res,
    fst (chat demo_client "Hello" None None
           (always (NetRaise ConnectTimeout "timed out") Since_2_27)) = Ret res
    /\ ChatResponse_str repr_stub res
       = "[ERROR] Request timeout - AI taking too long to respond".
Proof.
  destruct (chat_failure_str repr_stub demo_client "Hello" None None
              (always (NetRaise ConnectTimeout "timed out") Since_2_27)
              ConnectTimeout "timed out" eq_refl) as [res [Hres [_ Hstr]]].
  exists res. split; [exact Hres|]. rewrite Hstr. reflexivity.
Defined.

(** X8: for a success body with a string [project_id], a string
    [response] and an integer [images_uploaded], the string form of the
    result of [chat] is ["[<project_id>] <response>"] when the count is 0
    and carries [" [<n> image(s) uploaded]"] between the two otherwise;
    a body without [images_uploaded] prints like a count of 0. *)
Theorem chat_success_str
    repr_other self prompt project_url images w r items pid text :
  net w (List.length (sent w)) (chat_request self prompt project_url images)
    = NetResponse r ->
  ~ (400 <= status_code r < 600) ->
  content r = JsonDoc (PDict items) ->
  lookup "status" items = Some (PStr "success") ->
  lookup "project_id" items = Some (PStr pid) ->
  lookup "response" items = Some (PStr text) ->
  exists res,
    fst (chat self prompt project_url images w) = Ret res
    /\ (forall n, lookup "images_uploaded" items = Some (PInt n) ->
        ChatResponse_str repr_other res
        = if n =? 0 then "[" ++ pid ++ "] " ++ text
          else "[" ++ pid ++ "] [" ++ decimal n ++ " image(s) uploaded] " ++ text)
    /\ (lookup "images_uploaded" items = None ->
        ChatResponse_str repr_other res = "[" ++ pid ++ "] " ++ text).
Proof.
  intros H Hcode Hc Hst Hpid Htext.
  rewrite (chat_json_object _ _ _ _ _ _ _ H (http_error_msg_other r Hcode) Hc).
  eexists. split; [reflexivity|].
  unfold ChatResponse_str, success, dict_get.
  cbn [status project_id response images_uploaded].
  rewrite Hst, Hpid, Htext. cbn [py_eq_str].
  change (String.eqb "success" "success") with true. cbn iota.
  split.
  - intros n Hn. rewrite Hn. cbn [py_truthy py_str].
    destruct (n =? 0); cbn [negb]; [reflexivity|].
    rewrite !str_append_assoc. reflexivity.
  - intros Hn. rewrite Hn. reflexivity.
Qed.

Lemma chat_success_str_witness :
  exists res,
    fst (chat demo_client "Hello" None (Some ["aGVsbG8="])
           (always (ok_json "http://vm:8000/chat"
                      (PDict [("status", PStr "success"); ("project_id", PStr "p1");
                              ("response", PStr "Hi"); ("images_uploaded", PInt 1)]))
                   Since_2_27)) = Ret res
    /\ ChatResponse_str repr_stub res = "[p1] [1 image(s) uploaded] Hi".
Proof.
  destruct (chat_success_str repr_stub demo_client "Hello" None (Some ["aGVsbG8="])
              (always (ok_json "http://vm:8000/chat"
                         (PDict [("status", PStr "success"); ("project_id", PStr "p1");
                                 ("response", PStr "Hi"); ("images_uploaded", PInt 1)]))
                      Since_2_27)
              (mkResponse 200 "OK" "http://vm:8000/chat"
                 (JsonDoc (PDict [("status", PStr "success"); ("project_id", PStr "p1");
                                  ("response", PStr "Hi"); ("images_uploaded", PInt 1)])))
              [("status", PStr "success"); ("project_id", PStr "p1");
               ("response", PStr "Hi"); ("images_uploaded", PInt 1)]
              "p1" "Hi"
              eq_refl ltac:(simpl; lia) eq_refl eq_refl eq_refl eq_refl)
    as [res [Hres [Hn _]]].
  exists res. split; [exact Hres|]. rewrite (Hn 1 eq_refl). reflexivity.
Defined.

(** ** Monitoring operations on a body that is not JSON *)

(** X9: when the status passes [raise_for_status] but the body is not
    JSON, each of [get_status], [list_projects] and [reload_engine] raises
    the decoder's exception to the caller under either version of
    requests ([requests.exceptions.JSONDecodeError] since 2.27, the
    decoder's [JSONDecodeError] before); nothing is returned. *)
Theorem monitoring_raises_on_non_json op self w r msg :
  net w (List.length (sent w)) (monitoring_request op self) = NetResponse r ->
  ~ (400 <= status_code r < 600) ->
  content r = NotJson msg ->
  fst (match op with
       | GetStatus => get_status self
       | ListProjects => list_projects self
       | ReloadEngine => reload_engine self
       end w)
  = Raise (mkExn (match requests_version w with
                  | Before_2_27 => JSONDecodeError
                  | Since_2_27 => Requests RequestsJSONDecodeError
                  end) msg).
Proof.
  intros H Hcode Hc.
  replace (match op with
           | GetStatus => get_status self
           | ListProjects => list_projects self
           | ReloadEngine => reload_engine self
           end) with (run_monitoring op self) by (destruct op; reflexivity).
  rewrite run_monitoring_unfold. unfold bind.
  rewrite (requests_request_responds _ _ _ H).
  rewrite (raise_for_status_passes _ _ (http_error_msg_other r Hcode)).
  unfold Response_json. rewrite Hc. cbn [fst requests_version log_request].
  destruct (requests_version w); reflexivity.
Qed.

Lemma monitoring_raises_on_non_json_witness :
  fst (get_status demo_client
         (always (NetResponse (mkResponse 200 "OK" "http://vm:8000/status"
                                 (NotJson "Expecting value")))
                 Since_2_27))
  = Raise (mkExn (Requests RequestsJSONDecodeError) "Expecting value").
Proof.
  apply (monitoring_raises_on_non_json GetStatus demo_client
           (always (NetResponse (mkResponse 200 "OK" "http://vm:8000/status"
                                   (NotJson "Expecting value")))
                   Since_2_27)
           (mkResponse 200 "OK" "http://vm:8000/status" (NotJson "Expecting value"))
           "Expecting value").
  - reflexivity.
  - simpl. lia.
  - reflexivity.
Defined.

(** ** More on [quick_chat] *)

(** X10: a call of [quick_chat] whose constructor returns issues exactly
    two requests, whatever the server answers: the probe GET to [/status]
    with a timeout of 5 seconds, then the POST to [/chat] with the default
    timeout of 180 seconds, both on the base URL without its trailing
    slashes.  When an exception leaves the constructor, it leaves
    [quick_chat] too, and the probe is the only request. *)
Theorem quick_chat_issues_probe_then_chat
    repr_other prompt base project_url images w :
  (forall client w1,
      AIClient_init base 180 w = (Ret client, w1) ->
      sent (snd (quick_chat repr_other prompt base project_url images w))
      = (sent w ++
         [mkRequest GET (rstrip "/" base ++ "/status") None 5;
          mkRequest POST (rstrip "/" base ++ "/chat")
            (Some (chat_payload prompt project_url images)) 180])%list)
  /\ (forall e w1,
      AIClient_init base 180 w = (Raise e, w1) ->
      quick_chat repr_other prompt base project_url images w = (Raise e, w1)
      /\ sent w1
         = (sent w ++ [mkRequest GET (rstrip "/" base ++ "/status") None 5])%list).
Proof.
  split.
  - intros client w1 Hinit. apply AIClient_init_Ret_inv in Hinit.
    destruct Hinit as [Hesc _]. rewrite quick_chat_outcome, Hesc.
    pose proof (chat_world (mkAIClient (rstrip "/" base) default_timeout)
                  prompt project_url images (after_probe base w)) as Hw.
    destruct (chat _ _ _ _ _) as [[r|e] w']; cbn [snd] in *; subst w';
      cbn [sent log_request]; rewrite after_probe_sent, <- app_assoc; reflexivity.
  - intros e w1 Hinit. apply AIClient_init_Raise_inv in Hinit.
    destruct Hinit as [Hesc ->]. rewrite quick_chat_outcome, Hesc.
    split; reflexivity.
Qed.

Lemma quick_chat_issues_probe_then_chat_witness :
  sent (snd (quick_chat repr_stub "What is AI?" "http://vm:8000/" None None
               (always (NetRaise ConnectionError "Connection refused") Since_2_27)))
  = [mkRequest GET "http://vm:8000/status" None 5;
     mkRequest POST "http://vm:8000/chat"
       (Some (chat_payload "What is AI?" None None)) 180]
  /\ quick_chat repr_stub "What is AI?" "http://a..b" None None bad_host_world
     = (Raise (mkExn LocationParseError
                 "Failed to parse: 'a..b', label empty or too long"),
        log_request (mkRequest GET "http://a..b/status" None 5) bad_host_world).
Proof.
  split.
  - apply (proj1 (quick_chat_issues_probe_then_chat repr_stub "What is AI?"
                    "http://vm:8000/" None None
                    (always (NetRaise ConnectionError "Connection refused") Since_2_27))
             demo_client _ eq_refl).
  - apply (proj2 (quick_chat_issues_probe_then_chat repr_stub "What is AI?"
                    "http://a..b" None None bad_host_world)
             (mkExn LocationParseError
                "Failed to parse: 'a..b', label empty or too long")
             _ eq_refl).
Defined.

(** X11: [quick_chat] is not exception-free: when the constructor has
    returned, the chat response passes [raise_for_status] and its body is
    JSON but not an object,
    the [AttributeError] raised inside [chat] leaves [quick_chat] too. *)
Theorem quick_chat_raises_on_non_object
    repr_other prompt base project_url images w r v :
  (exists client, fst (AIClient_init base default_timeout w) = Ret client) ->
  net w (S (List.length (sent w))) (quick_chat_request prompt base project_url images)
    = NetResponse r ->
  ~ (400 <= status_code r < 600) ->
  content r = JsonDoc v ->
  (forall items, v <> PDict items) ->
  fst (quick_chat repr_other prompt base project_url images w)
  = Raise (mkExn AttributeError
             ("'" ++ type_name v ++ "' object has no attribute 'get'")).
Proof.
  intros Hinit H Hcode Hc Hv. rewrite (quick_chat_unfold _ _ _ _ _ _ Hinit).
  rewrite <- quick_chat_answer in H.
  rewrite (chat_not_an_object _ _ _ _ _ _ _ H (http_error_msg_other r Hcode) Hc Hv).
  reflexivity.
Qed.

Lemma quick_chat_raises_on_non_object_witness :
  fst (quick_chat repr_stub "What is AI?" "http://vm:8000" None None
         (always (ok_json "http://vm:8000/chat" (PStr "ok")) Since_2_27))
  = Raise (mkExn AttributeError "'str' object has no attribute 'get'").
Proof.
  apply (quick_chat_raises_on_non_object repr_stub "What is AI?" "http://vm:8000"
           None None
           (always (ok_json "http://vm:8000/chat" (PStr "ok")) Since_2_27)
           (mkResponse 200 "OK" "http://vm:8000/chat" (JsonDoc (PStr "ok")))
           (PStr "ok")).
  - exists (mkAIClient "http://vm:8000" 180). reflexivity.
  - reflexivity.
  - simpl. lia.
  - reflexivity.
  - intros items. discriminate.
Defined.

(** X12: when the constructor has returned and the chat response is a
    JSON object with neither a [status] nor an [error] entry, [quick_chat] returns the string ["Error: None"]:
    the status defaults to ["error"] and the missing error is formatted
    as [None]. *)
Theorem quick_chat_missing_status_and_error
    repr_other prompt base project_url images w r items :
  (exists client, fst (AIClient_init base default_timeout w) = Ret client) ->
  net w (S (List.length (sent w))) (quick_chat_request prompt base project_url images)
    = NetResponse r ->
  ~ (400 <= status_code r < 600) ->
  content r = JsonDoc (PDict items) ->
  lookup "status" items = None ->
  lookup "error" items = None ->
  fst (quick_chat repr_other prompt base project_url images w)
  = Ret (PStr "Error: None").
Proof.
  intros Hinit H Hcode Hc Hst Herr. rewrite (quick_chat_unfold _ _ _ _ _ _ Hinit).
  rewrite <- quick_chat_answer in H.
  rewrite (chat_json_object _ _ _ _ _ _ _ H (http_error_msg_other r Hcode) Hc).
  unfold success, dict_get. cbn [status error fst].
  rewrite Hst, Herr. reflexivity.
Qed.

Lemma quick_chat_missing_status_and_error_witness :
  fst (quick_chat repr_stub "What is AI?" "http://vm:8000" None None
         (always (ok_json "http://vm:8000/chat" (PDict [])) Since_2_27))
  = Ret (PStr "Error: None").
Proof.
  apply (quick_chat_missing_status_and_error repr_stub "What is AI?" "http://vm:8000"
           None None
           (always (ok_json "http://vm:8000/chat" (PDict [])) Since_2_27)
           (mkResponse 200 "OK" "http://vm:8000/chat" (JsonDoc (PDict [])))
           []).
  - exists (mkAIClient "http://vm:8000" 180). reflexivity.
  - reflexivity.
  - simpl. lia.
  - reflexivity.
  - reflexivity.
  - reflexivity.
Defined.

(** X13: the value of [quick_chat] does not tell success from failure:
    with the constructor returning in both runs, a successful response whose text is ["Error: " ++ m] and a failed
    response whose error is [m] give the same string. *)
Theorem quick_chat_conflates_success_and_failure
    repr_other prompt base project_url images w1 w2 r1 r2 items1 items2 st m :
  (exists client, fst (AIClient_init base default_timeout w1) = Ret client) ->
  (exists client, fst (AIClient_init base default_timeout w2) = Ret client) ->
  net w1 (S (List.length (sent w1)))
    (quick_chat_request prompt base project_url images) = NetResponse r1 ->
  net w2 (S (List.length (sent w2)))
    (quick_chat_request prompt base project_url images) = NetResponse r2 ->
  ~ (400 <= status_code r1 < 600) ->
  ~ (400 <= status_code r2 < 600) ->
  content r1 = JsonDoc (PDict items1) ->
  content r2 = JsonDoc (PDict items2) ->
  lookup "status" items1 = Some (PStr "success") ->
  lookup "response" items1 = Some (PStr ("Error: " ++ m)) ->
  lookup "status" items2 = Some (PStr st) ->
  st <> "success" ->
  lookup "error" items2 = Some (PStr m) ->
  fst (quick_chat repr_other prompt base project_url images w1)
  = fst (quick_chat repr_other prompt base project_url images w2)
  /\ fst (quick_chat repr_other prompt base project_url images w1)
     = Ret (PStr ("Error: " ++ m)).
Proof.
  intros Hinit1 Hinit2 H1 H2 Hcode1 Hcode2 Hc1 Hc2 Hst1 Hresp1 Hst2 Hne Herr2.
  rewrite (quick_chat_unfold _ _ _ _ _ _ Hinit1), (quick_chat_unfold _ _ _ _ _ _ Hinit2).
  rewrite <- quick_chat_answer in H1, H2.
  rewrite (chat_json_object _ _ _ _ _ _ _ H1 (http_error_msg_other r1 Hcode1) Hc1).
  rewrite (chat_json_object _ _ _ _ _ _ _ H2 (http_error_msg_other r2 Hcode2) Hc2).
  unfold success, dict_get. cbn [status response error fst].
  rewrite Hst1, Hresp1, Hst2, Herr2. cbn [py_eq_str py_str].
  change (String.eqb "success" "success") with true.
  apply String.eqb_neq in Hne. rewrite Hne. split; reflexivity.
Qed.

Lemma quick_chat_conflates_success_and_failure_witness :
  fst (quick_chat repr_stub "What is AI?" "http://vm:8000" None None
         (always (ok_json "http://vm:8000/chat"
                    (PDict [("status", PStr "success");
                            ("response", PStr "Error: NOT_LOGGED_IN")]))
                 Since_2_27))
  = fst (quick_chat repr_stub "What is AI?" "http://vm:8000" None None
           (always (ok_json "http://vm:8000/chat"
                      (PDict [("status", PStr "error");
                              ("error", PStr "NOT_LOGGED_IN")]))
                   Since_2_27)).
Proof.
  apply (quick_chat_conflates_success_and_failure repr_stub "What is AI?"
           "http://vm:8000" None None
           (always (ok_json "http://vm:8000/chat"
                      (PDict [("status", PStr "success");
                              ("response", PStr "Error: NOT_LOGGED_IN")]))
                   Since_2_27)
           (always (ok_json "http://vm:8000/chat"
                      (PDict [("status", PStr "error");
                              ("error", PStr "NOT_LOGGED_IN")]))
                   Since_2_27)
           (mkResponse 200 "OK" "http://vm:8000/chat"
              (JsonDoc (PDict [("status", PStr "success");
                               ("response", PStr "Error: NOT_LOGGED_IN")])))
           (mkResponse 200 "OK" "http://vm:8000/chat"
              (JsonDoc (PDict [("status", PStr "error");
                               ("error", PStr "NOT_LOGGED_IN")])))
           [("status", PStr "success"); ("response", PStr "Error: NOT_LOGGED_IN")]
           [("status", PStr "error"); ("error", PStr "NOT_LOGGED_IN")]
           "error" "NOT_LOGGED_IN");
    try reflexivity; try (simpl; lia);
    try (exists (mkAIClient "http://vm:8000" 180); reflexivity); discriminate.
Defined.

(** ** The shape of what [encode_image] returns *)

Lemma string_of_list_byte_length (bs : list byte) :
  String.length (string_of_list_byte bs) = List.length bs.
Proof.
  unfold string_of_list_byte.
  induction bs as [|b bs IH]; [reflexivity|].
  cbn [map string_of_list_ascii String.length List.length]. rewrite IH. reflexivity.
Qed.

Lemma b64encode_length (data : list byte) :
  List.length (b64encode data) = (4 * ((List.length data + 2) / 3))%nat.
Proof.
  induction data as [|a|a b|a b c rest IH] using list_ind3; try reflexivity.
  cbn [b64encode List.length]. rewrite IH.
  replace (S (S (S (List.length rest))) + 2)%nat
    with ((List.length rest + 2) + 1 * 3)%nat by lia.
  rewrite Nat.div_add by discriminate. lia.
Qed.

Lemma b64_char_in_alphabet_or_pad (n : Z) :
  In (b64_char n) b64_alphabet \/ b64_char n = b64_pad.
Proof.
  unfold b64_char.
  destruct (nth_in_or_default (Z.to_nat n) b64_alphabet b64_pad); auto.
Qed.

Lemma b64encode_alphabet (data : list byte) :
  Forall (fun b => In b b64_alphabet \/ b = b64_pad) (b64encode data).
Proof.
  induction data as [|a|a b|a b c rest IH] using list_ind3; cbn [b64encode];
    repeat (apply Forall_cons; [first [apply b64_char_in_alphabet_or_pad | now right]|]);
    first [apply Forall_nil | exact IH].
Qed.

Lemma b64_char_not_pad (n : Z) : 0 <= n < 64 -> b64_char n <> b64_pad.
Proof.
  intros H E. pose proof (b64_index_char n H) as Hi.
  rewrite E, b64_index_pad in Hi. discriminate.
Qed.

Lemma count_pad_cons_char (n : Z) (l : list byte) :
  0 <= n < 64 ->
  count_occ Byte.byte_eq_dec (b64_char n :: l) b64_pad
  = count_occ Byte.byte_eq_dec l b64_pad.
Proof.
  intros H. apply count_occ_cons_neq, b64_char_not_pad, H.
Qed.

Lemma b64encode_padding (data : list byte) :
  count_occ Byte.byte_eq_dec (b64encode data) b64_pad
  = ((3 - List.length data mod 3) mod 3)%nat.
Proof.
  induction data as [|a|a b|a b c rest IH] using list_ind3.
  - reflexivity.
  - cbn [b64encode].
    destruct (group1_arith _ (byte_to_Z_range a)) as [[Hs1 Hs2] _].
    rewrite !count_pad_cons_char by assumption. reflexivity.
  - cbn [b64encode].
    destruct (group2_arith _ _ (byte_to_Z_range a) (byte_to_Z_range b))
      as [[Hs1 [Hs2 Hs3]] _].
    rewrite !count_pad_cons_char by assumption. reflexivity.
  - cbn [b64encode].
    destruct (group3_arith _ _ _ (byte_to_Z_range a) (byte_to_Z_range b)
                (byte_to_Z_range c)) as [[Hs1 [Hs2 [Hs3 Hs4]]] _].
    rewrite !count_pad_cons_char by assumption. rewrite IH.
    cbn [List.length].
    replace (S (S (S (List.length rest)))) with (List.length rest + 1 * 3)%nat by lia.
    rewrite Nat.Div0.mod_add. reflexivity.
Qed.

(** X14: for a file of [n] bytes [encode_image] returns a string of
    exactly [4 * ceil(n / 3)] characters; in particular the length is a
    multiple of four and an empty file gives the empty string. *)
Theorem encode_image_length path w data :
  fs w path = Some data ->
  exists s,
    fst (encode_image path w) = Ret s
    /\ String.length s = (4 * ((List.length data + 2) / 3))%nat.
Proof.
  intros H. rewrite (encode_image_reads _ _ _ H).
  eexists. split; [reflexivity|].
  rewrite string_of_list_byte_length. apply b64encode_length.
Qed.

Lemma encode_image_length_witness :
  exists s,
    fst (encode_image "photo.jpg"
           (one_file "photo.jpg" [xff; xd8; xff; xe0; x00]%byte)) = Ret s
    /\ String.length s = 8%nat.
Proof.
  apply (encode_image_length "photo.jpg"
           (one_file "photo.jpg" [xff; xd8; xff; xe0; x00]%byte)
           [xff; xd8; xff; xe0; x00]%byte).
  reflexivity.
Defined.

(** X15: every character of the string [encode_image] returns is one of
    the 64 characters [A-Z a-z 0-9 + /] or the padding character [=], and
    [=] occurs [(3 - n mod 3) mod 3] times for a file of [n] bytes: never
    for a multiple of three, twice after one byte over, once after two. *)
Theorem encode_image_alphabet_and_padding path w data :
  fs w path = Some data ->
  exists s,
    fst (encode_image path w) = Ret s
    /\ Forall (fun b => In b b64_alphabet \/ b = b64_pad) (list_byte_of_string s)
    /\ count_occ Byte.byte_eq_dec (list_byte_of_string s) b64_pad
       = ((3 - List.length data mod 3) mod 3)%nat.
Proof.
  intros H. rewrite (encode_image_reads _ _ _ H).
  eexists. split; [reflexivity|].
  rewrite list_byte_of_string_of_list_byte.
  split; [apply b64encode_alphabet|apply b64encode_padding].
Qed.

Lemma encode_image_alphabet_and_padding_witness :
  exists s,
    fst (encode_image "photo.jpg"
           (one_file "photo.jpg" [xff; xd8; xff; xe0; x00]%byte)) = Ret s
    /\ count_occ Byte.byte_eq_dec (list_byte_of_string s) b64_pad = 1%nat.
Proof.
  destruct (encode_image_alphabet_and_padding "photo.jpg"
              (one_file "photo.jpg" [xff; xd8; xff; xe0; x00]%byte)
              [xff; xd8; xff; xe0; x00]%byte eq_refl) as [s [Hs [_ Hpad]]].
  exists s. split; [exact Hs|exact Hpad].
Defined.

(** X16: [encode_image] is injective on file contents: two files for
    which it returns the same string hold the same bytes. *)
Theorem encode_image_injective path1 path2 w data1 data2 :
  fs w path1 = Some data1 ->
  fs w path2 = Some data2 ->
  fst (encode_image path1 w) = fst (encode_image path2 w) ->
  data1 = data2.
Proof.
  intros H1 H2. rewrite (encode_image_reads _ _ _ H1), (encode_image_reads _ _ _ H2).
  cbn [fst]. intros E. injection E as E.
  apply (f_equal list_byte_of_string) in E.
  rewrite !list_byte_of_string_of_list_byte in E.
  apply (f_equal b64decode_bytes) in E.
  rewrite !b64decode_b64encode in E. congruence.
Qed.

Lemma encode_image_injective_witness :
  [x01; x02]%byte = [x01; x02]%byte.
Proof.
  apply (encode_image_injective "a.png" "b.png"
           (mkWorld (fun _ _ => NetRaise ConnectionError "unreachable") Since_2_27
              (fun _ => Some [x01; x02]%byte) [] [])
           [x01; x02]%byte [x01; x02]%byte);
    reflexivity.
Defined.

(** ** The example callers *)

Lemma unreachable_log_request req w :
  unreachable w -> unreachable (log_request req w).
Proof. intros H n r. apply H. Qed.

Lemma unreachable_emit line w :
  unreachable w -> unreachable (emit line w).
Proof. intros H n r. apply H. Qed.

Lemma unreachable_after_probe base w :
  unreachable w -> unreachable (after_probe base w).
Proof. intros H n r. rewrite after_probe_net. apply H. Qed.

Lemma unreachable_escapes w n req :
  unreachable w -> escapes (net w n req) = None.
Proof. intros H. destruct (H n req) as [c [msg ->]]. reflexivity. Qed.

(** The probe ended in a response or in an exception of [requests]. *)
Lemma network_outcome_escapes (o : NetOutcome) :
  (exists c msg, o = NetRaise c msg) \/ (exists r, o = NetResponse r) ->
  escapes o = None.
Proof. intros [[c [msg ->]]|[r ->]]; reflexivity. Qed.

Lemma chat_raise_result c msg self prompt project_url images w :
  net w (List.length (sent w)) (chat_request self prompt project_url images)
    = NetRaise c msg ->
  chat self prompt project_url images w
  = (Ret (mkChatResponse (PStr "error") PNone PNone (PStr (failure_text c msg)) PNone),
     log_request (chat_request self prompt project_url images) w).
Proof.
  intros H. rewrite (chat_transport_failure _ _ _ _ _ _ _ H).
  unfold failure_text. destruct (is_timeout c); reflexivity.
Qed.

Lemma chat_unreachable self prompt project_url images w :
  unreachable w ->
  exists c msg,
    chat self prompt project_url images w
    = (Ret (mkChatResponse (PStr "error") PNone PNone (PStr (failure_text c msg)) PNone),
       log_request (chat_request self prompt project_url images) w).
Proof.
  intros H.
  destruct (H (List.length (sent w)) (chat_request self prompt project_url images))
    as [c [msg Hnet]].
  exists c, msg. apply chat_raise_result, Hnet.
Qed.

Lemma process_user_question_unfold repr_other client question w :
  process_user_question repr_other client question w
  = match chat client question None None w with
    | (Ret r, w1) =>
        if success r then (Ret (response r), w1)
        else (Ret (PStr fallback_answer),
              emit ("AI Error: " ++ py_str repr_other (error r)) w1)
    | (Raise e, w1) => (Raise e, w1)
    end.
Proof.
  unfold process_user_question, bind.
  destruct (chat _ _ _ _ _) as [[r|e] w1]; [|reflexivity].
  destruct (success r); reflexivity.
Qed.

(** X17: [process_user_question] answers a transport failure of its chat
    request with the fixed apology, never with the error text, which only
    goes to standard output as one line ["AI Error: ..."]; for a success
    body it returns the body's [response] entry and prints nothing. *)
Theorem process_user_question_answers
    repr_other client question w :
  (forall c msg,
      net w (List.length (sent w)) (chat_request client question None None)
        = NetRaise c msg ->
      fst (process_user_question repr_other client question w)
      = Ret (PStr "Sorry, I couldn't process your question right now.")
      /\ stdout (snd (process_user_question repr_other client question w))
         = (stdout w ++
            [("AI Error: " ++
              (if isinstance (mkExn (Requests c) msg) (Requests Timeout)
               then "Request timeout - AI taking too long to respond"
               else "Request failed: " ++ msg))%string])%list)
  /\ (forall r items,
      net w (List.length (sent w)) (chat_request client question None None)
        = NetResponse r ->
      ~ (400 <= status_code r < 600) ->
      content r = JsonDoc (PDict items) ->
      lookup "status" items = Some (PStr "success") ->
      fst (process_user_question repr_other client question w)
      = Ret (match lookup "response" items with Some v => v | None => PNone end)
      /\ stdout (snd (process_user_question repr_other client question w))
         = stdout w).
Proof.
  split.
  - intros c msg H. rewrite process_user_question_unfold.
    rewrite (chat_transport_failure _ _ _ _ _ _ _ H), isinstance_Timeout.
    destruct (is_timeout c); split; reflexivity.
  - intros r items H Hcode Hc Hst. rewrite process_user_question_unfold.
    rewrite (chat_json_object _ _ _ _ _ _ _ H (http_error_msg_other r Hcode) Hc).
    unfold success, dict_get. cbn [status response]. rewrite Hst.
    split; reflexivity.
Qed.

Lemma process_user_question_answers_witness :
  fst (process_user_question repr_stub demo_client "What is quantum computing?"
         (always (NetRaise ConnectionError "Connection refused") Since_2_27))
  = Ret (PStr "Sorry, I couldn't process your question right now.")
  /\ fst (process_user_question repr_stub demo_client "What is quantum computing?"
            (always (ok_json "http://vm:8000/chat"
                       (PDict [("status", PStr "success"); ("response", PStr "Qubits")]))
                    Since_2_27))
     = Ret (PStr "Qubits").
Proof.
  split.
  - apply (proj1 (process_user_question_answers repr_stub demo_client
                    "What is quantum computing?"
                    (always (NetRaise ConnectionError "Connection refused") Since_2_27))
             ConnectionError "Connection refused" eq_refl).
  - apply (proj2 (process_user_question_answers repr_stub demo_client
                    "What is quantum computing?"
                    (always (ok_json "http://vm:8000/chat"
                               (PDict [("status", PStr "success");
                                       ("response", PStr "Qubits")]))
                            Since_2_27))
             (mkResponse 200 "OK" "http://vm:8000/chat"
                (JsonDoc (PDict [("status", PStr "success"); ("response", PStr "Qubits")])))
             [("status", PStr "success"); ("response", PStr "Qubits")]
             eq_refl ltac:(simpl; lia) eq_refl eq_refl).
Defined.

Lemma batch_loop_cons repr_other client total i question rest results w :
  batch_loop repr_other client total i (question :: rest) results w
  = match chat client question None None
            (emit ("Processing " ++ decimal i ++ "/" ++ decimal (Z.of_nat total)
                     ++ ": " ++ question) w) with
    | (Ret r, w1) =>
        if success r
        then batch_loop repr_other client total (i + 1) rest
               (results ++ [PDict [("question", PStr question);
                                   ("answer", response r)]])%list w1
        else batch_loop repr_other client total (i + 1) rest results
               (emit ("  ✗ Failed: " ++ py_str repr_other (error r)) w1)
    | (Raise e, w1) => (Raise e, w1)
    end.
Proof.
  cbn [batch_loop]. unfold bind at 1. unfold print at 1. cbn beta iota.
  unfold bind at 1.
  destruct (chat _ _ _ _ _) as [[r|e] w1]; [|reflexivity].
  destruct (success r); reflexivity.
Qed.

(** X18: whenever the loop of [example_batch_processing] finishes, it has
    sent exactly one chat request per question, in the order of the
    questions and with no project URL or images, and it has appended to
    the results at most one entry per question, each a dict with the keys
    [question] and [answer] for one of the questions. *)
Theorem batch_loop_one_request_per_question
    repr_other client questions :
  forall total i results w res w',
    batch_loop repr_other client total i questions results w = (Ret res, w') ->
    sent w' = (sent w ++ map (fun q => chat_request client q None None) questions)%list
    /\ exists added,
        res = (results ++ added)%list
        /\ (List.length added <= List.length questions)%nat
        /\ Forall (fun entry =>
                     exists q a, In q questions
                       /\ entry = PDict [("question", PStr q); ("answer", a)]) added.
Proof.
  induction questions as [|question rest IH]; intros total i results w res w' H.
  - cbn in H. injection H as <- <-. split; [cbn; rewrite app_nil_r; reflexivity|].
    exists []. rewrite app_nil_r. repeat split; [cbn; lia|constructor].
  - rewrite batch_loop_cons in H.
    match type of H with
    | context [chat ?c ?q ?u ?im ?w0] =>
        pose proof (chat_world c q u im w0) as Hw;
        destruct (chat c q u im w0) as [[r|e] w1]
    end; [|discriminate].
    cbn [snd] in Hw. subst w1.
    destruct (success r).
    + apply IH in H. destruct H as [Hsent [added [Hres [Hlen Hall]]]].
      split.
      * rewrite Hsent. cbn [sent log_request emit map].
        rewrite <- app_assoc. reflexivity.
      * exists (PDict [("question", PStr question); ("answer", response r)] :: added).
        split; [rewrite Hres, <- app_assoc; reflexivity|].
        split; [cbn [List.length]; lia|].
        constructor.
        -- exists question, (response r). split; [left; reflexivity|reflexivity].
        -- eapply Forall_impl; [|exact Hall].
           intros entry [q [a [Hin He]]]. exists q, a. split; [right; exact Hin|exact He].
    + apply IH in H. destruct H as [Hsent [added [Hres [Hlen Hall]]]].
      split.
      * rewrite Hsent. cbn [sent log_request emit map].
        rewrite <- app_assoc. reflexivity.
      * exists added. split; [exact Hres|].
        split; [cbn [List.length]; lia|].
        eapply Forall_impl; [|exact Hall].
        intros entry [q [a [Hin He]]]. exists q, a. split; [right; exact Hin|exact He].
Qed.

Lemma batch_loop_one_request_per_question_witness :
  sent (snd (batch_loop repr_stub demo_client 2 1 ["What is AI?"; "What is ML?"] []
               (always (ok_json "http://vm:8000/chat"
                          (PDict [("status", PStr "success"); ("response", PStr "Hi")]))
                       Since_2_27)))
  = [chat_request demo_client "What is AI?" None None;
     chat_request demo_client "What is ML?" None None].
Proof.
  apply (batch_loop_one_request_per_question repr_stub demo_client
           ["What is AI?"; "What is ML?"] 2%nat 1 []
           (always (ok_json "http://vm:8000/chat"
                      (PDict [("status", PStr "success"); ("response", PStr "Hi")]))
                   Since_2_27)
           [PDict [("question", PStr "What is AI?"); ("answer", PStr "Hi")];
            PDict [("question", PStr "What is ML?"); ("answer", PStr "Hi")]]
           _ eq_refl).
Defined.

Lemma batch_loop_unreachable repr_other client questions :
  forall total i results w,
    unreachable w ->
    exists w',
      batch_loop repr_other client total i questions results w = (Ret results, w')
      /\ sent w'
         = (sent w ++ map (fun q => chat_request client q None None) questions)%list.
Proof.
  induction questions as [|question rest IH]; intros total i results w Hw.
  - exists w. split; [reflexivity|]. cbn. rewrite app_nil_r. reflexivity.
  - rewrite batch_loop_cons.
    edestruct (chat_unreachable client question None None) as [c [msg Hchat]];
      [apply unreachable_emit, Hw|].
    rewrite Hchat.
    cbn [success status py_eq_str]. cbn iota.
    change (String.eqb "error" "success") with false. cbn iota.
    edestruct IH as [w' [Hb Hs]];
      [apply unreachable_emit, unreachable_log_request, unreachable_emit, Hw|].
    exists w'. split; [exact Hb|].
    rewrite Hs. cbn [sent log_request emit map]. rewrite <- app_assoc. reflexivity.
Qed.

Lemma example_batch_processing_unfold repr_other w :
  escapes (net w (List.length (sent w)) (probe_request API_URL)) = None ->
  example_batch_processing repr_other w
  = match batch_loop repr_other (mkAIClient (rstrip "/" API_URL) default_timeout)
            (List.length batch_questions) 1 batch_questions []
            (after_probe API_URL
               (emit (str_mul "=" 70)
                  (emit "Example 4: Batch Processing"
                     (emit (newline ++ str_mul "=" 70) w)))) with
    | (Ret results, w') =>
        (Ret tt,
         emit (newline ++ "✓ Successfully processed "
                 ++ decimal (Z.of_nat (List.length results)) ++ "/"
                 ++ decimal (Z.of_nat (List.length batch_questions)) ++ " questions") w')
    | (Raise e, w') => (Raise e, w')
    end.
Proof.
  intros Hesc. unfold example_batch_processing, bind, print.
  rewrite AIClient_init_returns by exact Hesc.
  destruct (batch_loop _ _ _ _ _ _ _) as [[results|e] w']; reflexivity.
Qed.

(** X19: against a server that cannot be reached (every request ends in
    some [requests] exception), [example_batch_processing] still returns
    normally: it sends the probe and then one chat request for each of
    its three questions, collects no result, and its last line reports 0
    of 3 questions processed. *)
Theorem example_batch_processing_unreachable repr_other w :
  (forall n req, exists c msg, net w n req = NetRaise c msg) ->
  fst (example_batch_processing repr_other w) = Ret tt
  /\ sent (snd (example_batch_processing repr_other w))
     = (sent w ++
        [mkRequest GET "http://your-vm-ip:8000/status" None 5;
         mkRequest POST "http://your-vm-ip:8000/chat"
           (Some (chat_payload "What is AI?" None None)) 180;
         mkRequest POST "http://your-vm-ip:8000/chat"
           (Some (chat_payload "What is ML?" None None)) 180;
         mkRequest POST "http://your-vm-ip:8000/chat"
           (Some (chat_payload "What is DL?" None None)) 180])%list
  /\ last (stdout (snd (example_batch_processing repr_other w))) EmptyString
     = newline ++ "✓ Successfully processed 0/3 questions".
Proof.
  intros Hw. fold (unreachable w) in Hw.
  rewrite example_batch_processing_unfold by (apply unreachable_escapes, Hw).
  edestruct (batch_loop_unreachable repr_other
               (mkAIClient (rstrip "/" API_URL) default_timeout) batch_questions)
    as [w' [Hb Hs]];
    [apply unreachable_after_probe, unreachable_emit, unreachable_emit,
       unreachable_emit, Hw|].
  rewrite Hb. cbn [fst snd]. split; [reflexivity|]. split.
  - cbn [sent emit]. rewrite Hs, after_probe_sent. cbn [sent emit].
    rewrite <- app_assoc. reflexivity.
  - cbn [stdout emit]. rewrite last_last. reflexivity.
Qed.

Lemma example_batch_processing_unreachable_witness :
  fst (example_batch_processing repr_stub
         (mkWorld (fun _ req =>
                     NetRaise ConnectionError
                       ("Max retries exceeded with url: " ++ req_url req))
            Since_2_27 (fun _ => None) [] []))
  = Ret tt.
Proof.
  apply (example_batch_processing_unreachable repr_stub
           (mkWorld (fun _ req =>
                       NetRaise ConnectionError
                         ("Max retries exceeded with url: " ++ req_url req))
              Since_2_27 (fun _ => None) [] [])).
  intros n req. exists ConnectionError, ("Max retries exceeded with url: " ++ req_url req).
  reflexivity.
Defined.

Lemma example_single_project_unfold repr_other w :
  escapes (net w (List.length (sent w)) (probe_request API_URL)) = None ->
  example_single_project repr_other w
  = match chat (mkAIClient (rstrip "/" API_URL) default_timeout)
            "What is artificial intelligence? Be brief." None None
            (after_probe API_URL
               (emit (str_mul "=" 70)
                  (emit "Example 1: Single Project Mode"
                     (emit (str_mul "=" 70) w)))) with
    | (Ret r, w') =>
        (Ret tt,
         emit (if success r
               then "✓ Response: " ++ py_str repr_other (response r)
               else "✗ Error: " ++ py_str repr_other (error r)) w')
    | (Raise e, w') => (Raise e, w')
    end.
Proof.
  intros Hesc. unfold example_single_project, bind, print.
  rewrite AIClient_init_returns by exact Hesc.
  destruct (chat _ _ _ _ _) as [[r|e] w']; [|reflexivity].
  destruct (success r); reflexivity.
Qed.

(** X20: when the probe and the chat request of [example_single_project]
    both end in a [requests] exception, each with its own class and text
    (a server that cannot be reached), the example returns normally after
    printing its banner, the constructor's warning with the text of the
    probe's exception, and one line ["✗ Error: ..."] with the failure text
    [chat] made of the chat request's exception. *)
Theorem example_single_project_unreachable repr_other w c1 msg1 c2 msg2 :
  net w (List.length (sent w))
    (mkRequest GET "http://your-vm-ip:8000/status" None 5) = NetRaise c1 msg1 ->
  net w (S (List.length (sent w)))
    (mkRequest POST "http://your-vm-ip:8000/chat"
       (Some (chat_payload "What is artificial intelligence? Be brief." None None))
       180) = NetRaise c2 msg2 ->
  fst (example_single_project repr_other w) = Ret tt
  /\ stdout (snd (example_single_project repr_other w))
     = (stdout w ++
        [str_mul "=" 70;
         "Example 1: Single Project Mode";
         str_mul "=" 70;
         ("Warning: Could not connect to API: " ++ msg1)%string;
         ("✗ Error: " ++
          (if isinstance (mkExn (Requests c2) msg2) (Requests Timeout)
           then "Request timeout - AI taking too long to respond"
           else "Request failed: " ++ msg2))%string])%list.
Proof.
  intros Hprobe Hchat.
  change (mkRequest GET "http://your-vm-ip:8000/status" None 5)
    with (probe_request API_URL) in Hprobe.
  rewrite example_single_project_unfold by (rewrite Hprobe; reflexivity).
  rewrite (chat_raise_result c2 msg2)
    by (rewrite after_probe_net, after_probe_next; exact Hchat).
  unfold after_probe. cbn [net sent emit]. rewrite Hprobe.
  rewrite isinstance_Timeout. unfold failure_text.
  cbn [fst snd stdout emit log_request success status py_eq_str error py_str
         probe_warning].
  change (String.eqb "error" "success") with false. cbn iota.
  split; [reflexivity|].
  rewrite <- !app_assoc. reflexivity.
Qed.

Lemma example_single_project_unreachable_witness :
  fst (example_single_project repr_stub
         (probe_then (NetRaise ConnectionError "refused: /status")
                     (NetRaise ReadTimeout "Read timed out. (read timeout=180)")
                     Since_2_27))
  = Ret tt
  /\ last (stdout (snd (example_single_project repr_stub
                          (probe_then (NetRaise ConnectionError "refused: /status")
                             (NetRaise ReadTimeout "Read timed out. (read timeout=180)")
                             Since_2_27))))
       EmptyString
     = "✗ Error: Request timeout - AI taking too long to respond".
Proof.
  destruct (example_single_project_unreachable repr_stub
              (probe_then (NetRaise ConnectionError "refused: /status")
                          (NetRaise ReadTimeout "Read timed out. (read timeout=180)")
                          Since_2_27)
              ConnectionError "refused: /status"
              ReadTimeout "Read timed out. (read timeout=180)"
              eq_refl eq_refl) as [Hret Hout].
  split; [exact Hret|]. rewrite Hout. reflexivity.
Defined.

Lemma example_application_integration_unfold repr_other w :
  escapes (net w (List.length (sent w)) (probe_request API_URL)) = None ->
  example_application_integration repr_other w
  = match process_user_question repr_other
            (mkAIClient (rstrip "/" API_URL) default_timeout)
            "What is quantum computing?"
            (after_probe API_URL
               (emit (str_mul "=" 70)
                  (emit "Example 6: Application Integration"
                     (emit (newline ++ str_mul "=" 70) w)))) with
    | (Ret answer, w') =>
        (Ret tt,
         emit ("A: " ++ py_str repr_other answer)
           (emit ("Q: " ++ "What is quantum computing?") w'))
    | (Raise e, w') => (Raise e, w')
    end.
Proof.
  intros Hesc.
  unfold example_application_integration. unfold bind at 1 2 3 4 5 6. unfold print.
  rewrite AIClient_init_returns by exact Hesc.
  destruct (process_user_question _ _ _ _) as [[answer|e] w']; reflexivity.
Qed.

(** X21: when the probe of [example_application_integration] ends in a
    response or a [requests] exception, the example returns normally and
    its last line is the answer: ["A: None"] when the chat response is a
    success body without a [response] entry, and the apology when the chat
    request ends in a [requests] exception. *)
Theorem example_application_integration_answer_line repr_other w :
  ((exists c msg,
       net w (List.length (sent w))
         (mkRequest GET "http://your-vm-ip:8000/status" None 5) = NetRaise c msg)
   \/ (exists r,
       net w (List.length (sent w))
         (mkRequest GET "http://your-vm-ip:8000/status" None 5) = NetResponse r)) ->
  (forall r items,
      net w (S (List.length (sent w)))
        (chat_request (mkAIClient "http://your-vm-ip:8000" 180)
           "What is quantum computing?" None None) = NetResponse r ->
      ~ (400 <= status_code r < 600) ->
      content r = JsonDoc (PDict items) ->
      lookup "status" items = Some (PStr "success") ->
      lookup "response" items = None ->
      fst (example_application_integration repr_other w) = Ret tt
      /\ last (stdout (snd (example_application_integration repr_other w))) EmptyString
         = "A: None")
  /\ (forall c msg,
      net w (S (List.length (sent w)))
        (chat_request (mkAIClient "http://your-vm-ip:8000" 180)
           "What is quantum computing?" None None) = NetRaise c msg ->
      fst (example_application_integration repr_other w) = Ret tt
      /\ last (stdout (snd (example_application_integration repr_other w))) EmptyString
         = "A: Sorry, I couldn't process your question right now.").
Proof.
  intros Hprobe.
  assert (Hesc : escapes (net w (List.length (sent w)) (probe_request API_URL)) = None).
  { apply network_outcome_escapes.
    destruct Hprobe as [[c [msg H]]|[r H]]; [left; exists c, msg|right; exists r];
      exact H. }
  split.
  - intros r items H Hcode Hc Hst Hresp.
    rewrite (example_application_integration_unfold _ _ Hesc),
      process_user_question_unfold.
    change (rstrip "/" API_URL) with "http://your-vm-ip:8000".
    change default_timeout with 180.
    erewrite chat_json_object;
      [| rewrite after_probe_net, after_probe_next; exact H
       | exact (http_error_msg_other r Hcode) | exact Hc].
    unfold success, dict_get. cbn [status response]. rewrite Hst, Hresp.
    cbn [py_eq_str]. change (String.eqb "success" "success") with true. cbn iota.
    cbn [fst snd stdout emit]. split; [reflexivity|].
    rewrite last_last. reflexivity.
  - intros c msg H.
    rewrite (example_application_integration_unfold _ _ Hesc),
      process_user_question_unfold.
    change (rstrip "/" API_URL) with "http://your-vm-ip:8000".
    change default_timeout with 180.
    rewrite (chat_raise_result c msg)
      by (rewrite after_probe_net, after_probe_next; exact H).
    cbn [success status py_eq_str]. change (String.eqb "error" "success") with false.
    cbn iota. cbn [fst snd stdout emit]. split; [reflexivity|].
    rewrite last_last. reflexivity.
Qed.

Lemma example_application_integration_answer_line_witness :
  last (stdout (snd (example_application_integration repr_stub
                       (always (ok_json "http://your-vm-ip:8000/chat"
                                  (PDict [("status", PStr "success")]))
                               Since_2_27)))) EmptyString
  = "A: None"
  /\ last (stdout (snd (example_application_integration repr_stub
                          (probe_then (NetRaise ConnectionError "refused: /status")
                                      (NetRaise ConnectionError "refused: /chat")
                                      Since_2_27)))) EmptyString
     = "A: Sorry, I couldn't process your question right now.".
Proof.
  split.
  - apply (proj1 (example_application_integration_answer_line repr_stub
                    (always (ok_json "http://your-vm-ip:8000/chat"
                               (PDict [("status", PStr "success")]))
                            Since_2_27)
                    ltac:(right; eexists; reflexivity))
             (mkResponse 200 "OK" "http://your-vm-ip:8000/chat"
                (JsonDoc (PDict [("status", PStr "success")])))
             [("status", PStr "success")]
             eq_refl ltac:(simpl; lia) eq_refl eq_refl eq_refl).
  - apply (proj2 (example_application_integration_answer_line repr_stub
                    (probe_then (NetRaise ConnectionError "refused: /status")
                                (NetRaise ConnectionError "refused: /chat")
                                Since_2_27)
                    ltac:(left; eexists; eexists; reflexivity))
             ConnectionError "refused: /chat" eq_refl).
Defined.

(** ** [encode_image] feeding [chat] *)

(** X22: in the documented usage [chat(prompt, images=[encode_image(path)])],
    when the file exists the one request sent carries under [images] a
    single string that decodes to exactly the file's bytes; when the file
    is missing, [FileNotFoundError] is raised and no request is sent. *)
Theorem encode_image_then_chat client prompt path w :
  (forall data, fs w path = Some data ->
     exists s,
       b64decode s = Some data
       /\ sent (snd ((img <- encode_image path ;;
                      chat client prompt None (Some [img])) w))
          = (sent w ++
             [mkRequest POST (base_url client ++ "/chat")
                (Some (PDict [("prompt", PStr prompt); ("project_url", PNone);
                              ("images", PList [PStr s])]))
                (timeout client)])%list)
  /\ (fs w path = None ->
      exists msg,
        (img <- encode_image path ;; chat client prompt None (Some [img])) w
        = (Raise (mkExn FileNotFoundError msg), w)).
Proof.
  split.
  - intros data H. exists (string_of_list_byte (b64encode data)). split.
    + unfold b64decode. rewrite list_byte_of_string_of_list_byte.
      apply b64decode_b64encode.
    + unfold bind at 1. rewrite (encode_image_reads _ _ _ H).
      rewrite chat_world. reflexivity.
  - intros H. eexists. unfold bind at 1.
    rewrite (encode_image_missing _ _ H). reflexivity.
Qed.

Lemma encode_image_then_chat_witness :
  (exists s,
      b64decode s = Some [xff; xd8; xff]%byte
      /\ sent (snd ((img <- encode_image "photo.jpg" ;;
                     chat demo_client "Describe this" None (Some [img]))
                      (one_file "photo.jpg" [xff; xd8; xff]%byte)))
         = [mkRequest POST "http://vm:8000/chat"
              (Some (PDict [("prompt", PStr "Describe this"); ("project_url", PNone);
                            ("images", PList [PStr s])]))
              180])
  /\ (exists msg,
        (img <- encode_image "missing.png" ;;
         chat demo_client "Describe this" None (Some [img]))
          (one_file "photo.jpg" [xff; xd8; xff]%byte)
        = (Raise (mkExn FileNotFoundError msg),
           one_file "photo.jpg" [xff; xd8; xff]%byte)).
Proof.
  split.
  - apply (proj1 (encode_image_then_chat demo_client "Describe this" "photo.jpg"
                    (one_file "photo.jpg" [xff; xd8; xff]%byte))
             [xff; xd8; xff]%byte eq_refl).
  - apply (proj2 (encode_image_then_chat demo_client "Describe this" "missing.png"
                    (one_file "photo.jpg" [xff; xd8; xff]%byte))
             eq_refl).
Defined.
